(** * Crawler: a shallow embedding of [crawler/crawler.go]

    The development follows the second (multi-seed, worker-pool) version of
    the orchestration code: [NewCrawler], [CrawlRepo], [CrawlPublishers],
    [removeBlackListedFromRepositories], [crawl], [CrawlOrg],
    [ProcessRepositories], [ProcessRepo], [validateRemoteFile],
    [getRemoteFile] and [validateFile].

    Go strings are byte sequences and are modelled by [string]; a Go [error]
    is an [option string] ([None] is [nil]); a [map[string]string] is a
    [gmap string string]; a buffered channel is a record holding its
    capacity and its pending items. *)

From Stdlib Require Import String Ascii List ZArith Lia Bool.
From stdpp Require Import base option list strings pretty gmap.

Local Open Scope string_scope.
Local Open Scope list_scope.

(** ** The parts of Go's [strings] package used by the crawler *)

Module GoStrings.

(** Go's functions work on runes once a byte of 128 or more is involved:
    [TrimSpace] then trims Unicode white space, [EqualFold] compares under
    Unicode simple case folding, and [TrimRight] trims whole runes when the
    cutset holds such a byte.  Those paths rest on the tables of the
    [unicode] package and are taken from the library as they are, through
    [Unicode]; the byte paths that Go takes on ASCII input are written
    out. *)

Definition bytes (s : string) : list ascii := list_ascii_of_string s.
Definition of_bytes (l : list ascii) : string := string_of_list_ascii l.

(** [c < utf8.RuneSelf] *)
Definition isASCIIByte (c : ascii) : bool := (nat_of_ascii c <? 128)%nat.

(** Every byte of [s] is below [utf8.RuneSelf]. *)
Definition isASCII (s : string) : bool := forallb isASCIIByte (bytes s).

(** What the library does outside the byte paths: [strings.TrimRight] with
    a cutset that is not ASCII, [strings.TrimSpace] on a string that is not
    ASCII, [strings.EqualFold] when one of the strings is not ASCII. *)
Class Unicode := {
  trimRightUnicode : string -> string -> string;
  trimSpaceUnicode : string -> string;
  equalFoldUnicode : string -> string -> bool
}.

Fixpoint dropWhile {A} (f : A -> bool) (l : list A) : list A :=
  match l with
  | [] => []
  | x :: l' => if f x then dropWhile f l' else l
  end.

(** [for len(s) > 0 && f(s[len(s)-1]) { s = s[:len(s)-1] }] *)
Definition dropWhileEnd {A} (f : A -> bool) (l : list A) : list A :=
  reverse (dropWhile f (reverse l)).

(** [asciiSet.contains]: membership of a byte in the cutset. *)
Definition contains (cutset : string) (c : ascii) : bool :=
  existsb (Ascii.eqb c) (bytes cutset).

(** [strings.TrimRight(s, cutset)]: the cutset is a SET; with an ASCII
    cutset ([makeASCIISet] succeeds) the trailing bytes of [s] that belong
    to it are removed, whatever [s] holds. *)
Definition TrimRight `{Unicode} (s cutset : string) : string :=
  if isASCII cutset
  then of_bytes (dropWhileEnd (contains cutset) (bytes s))
  else trimRightUnicode s cutset.

(** [strings.HasSuffix] and [strings.TrimSuffix], used to state what
    removing a suffix means; both compare bytes. *)
Fixpoint hasPrefixBytes (l p : list ascii) {struct p} : bool :=
  match p, l with
  | [], _ => true
  | c :: p', d :: l' => Ascii.eqb c d && hasPrefixBytes l' p'
  | _ :: _, [] => false
  end.

Definition HasSuffix (s suffix : string) : bool :=
  hasPrefixBytes (reverse (bytes s)) (reverse (bytes suffix)).

Definition TrimSuffix (s suffix : string) : string :=
  if HasSuffix s suffix
  then of_bytes (take (String.length s - String.length suffix) (bytes s))
  else s.

(** [asciiSpace]: tab, newline, vertical tab, form feed, carriage return
    and space. *)
Definition isSpace (c : ascii) : bool :=
  let n := nat_of_ascii c in
  (((9 <=? n) && (n <=? 13)) || (n =? 32))%nat.

(** [strings.TrimSpace]: on an ASCII string [start] skips leading white
    space, [stop] skips trailing white space, and the result is
    [s[start:stop]]. *)
Definition TrimSpace `{Unicode} (s : string) : string :=
  if isASCII s
  then of_bytes (dropWhileEnd isSpace (dropWhile isSpace (bytes s)))
  else trimSpaceUnicode s.

(** One step of the ASCII loop of [strings.EqualFold]: equal bytes, or
    after ordering them [sr < tr], an upper-case [sr] with
    [tr == sr + 'a' - 'A']. *)
Definition foldEqByte (sr tr : ascii) : bool :=
  let s := nat_of_ascii sr in
  let t := nat_of_ascii tr in
  if (t =? s)%nat then true
  else
    let lo := Nat.min s t in
    let hi := Nat.max s t in
    ((65 <=? lo) && (lo <=? 90) && (hi =? lo + 32))%nat.

(** The ASCII loop of [strings.EqualFold]: it runs while both strings have
    bytes left and the result is then [len(s) == len(t)]. *)
Fixpoint equalFoldASCII (s t : string) : bool :=
  match s, t with
  | String sr s', String tr t' => foldEqByte sr tr && equalFoldASCII s' t'
  | EmptyString, EmptyString => true
  | _, _ => false
  end.

(** [strings.EqualFold]: the ASCII loop decides when it meets no byte of
    128 or more. *)
Definition EqualFold `{Unicode} (s t : string) : bool :=
  if isASCII s && isASCII t then equalFoldASCII s t else equalFoldUnicode s t.

End GoStrings.

(** ** Data model *)

(** A Go [error]: [None] is [nil], [Some msg] an error whose text is [msg]. *)
Definition error := option string.

Definition failed (err : error) : bool :=
  match err with Some _ => true | None => false end.

(** [Domain] (declared in another file of the package): the fields the
    crawler reads. *)
Record Domain := {
  Host : string;
  UseTokenFor : list string;
  BasicAuth : list string
}.

(** [PA] (declared in another file of the package): a publisher. *)
Record PA := {
  PAName : string;
  CodiceIPA : string;
  Organizations : list string;
  Repositories : list string;
  UnknownIPA : bool
}.

(** [type Repository struct]: a candidate. *)
Record Repository := {
  Name : string;
  Hostname : string;
  FileRawURL : string;
  GitCloneURL : string;
  GitBranch : string;
  RepoDomain : Domain;
  Pa : PA;
  Headers : gmap string string;
  Metadata : string
}.

(** [httpclient.HTTPResponse]: [resp.Status.Code] and [resp.Body]. *)
Record HTTPResponse := {
  StatusCode : Z;
  Body : string
}.

(** [publiccode.Parser]: the fields the crawler sets and reads;
    [ParsedCodiceIPA] is [parser.PublicCode.It.Riuso.CodiceIPA]. *)
Record Parser := {
  Strict : bool;
  RemoteBaseURL : string;
  ParsedCodiceIPA : string
}.

(** [publiccode.NewParser()]: the crawler only relies on the fields it
    overwrites, and on the parsed code being empty before parsing. *)
Definition NewParser : Parser :=
  {| Strict := true; RemoteBaseURL := ""; ParsedCodiceIPA := "" |}.

(** ** Channels *)

Module Chan.

(** [make(chan A, cap)]: the items sent and not yet received, oldest
    first. *)
Record chan (A : Type) := Mk {
  cap : nat;
  pending : list A;
  closed : bool
}.
Arguments Mk {A}.
Arguments cap {A}.
Arguments pending {A}.
Arguments closed {A}.

Definition make {A} (n : nat) : chan A :=
  {| cap := n; pending := []; closed := false |}.

(** [ch <- x] while no goroutine receives from [ch]: the item is buffered
    when there is room, and the sender blocks ([None]) when the buffer is
    full. *)
Definition send {A} (ch : chan A) (x : A) : option (chan A) :=
  if (length (pending ch) <? cap ch)%nat
  then Some {| cap := cap ch; pending := pending ch ++ [x]; closed := closed ch |}
  else None.

(** [close(ch)] *)
Definition close {A} (ch : chan A) : chan A :=
  {| cap := cap ch; pending := pending ch; closed := true |}.

(** Successive sends by producers while nothing is received. *)
Fixpoint sendAll {A} (ch : chan A) (xs : list A) : option (chan A) :=
  match xs with
  | [] => Some ch
  | x :: xs' =>
      match send ch x with
      | Some ch' => sendAll ch' xs'
      | None => None
      end
  end.

End Chan.

(** ** Observable effects *)

Inductive level := DebugLevel | InfoLevel | WarnLevel | ErrorLevel.

(** What a function of the crawler does to the outside world, in program
    order.  A log call is recorded with its level and its format string. *)
Inductive event (F : Type) :=
| Log (lvl : level) (fmt : string)
| CounterInc (name index : string)
| HTTPGet (url : string) (headers : gmap string string)
| Parse (data : string) (p : Parser) (host : string)
| LogBadYamlToFile (fileRawURL : string)
| Clone (domain : Domain) (hostname name gitCloneURL gitBranch index : string)
| Activity (repository : Repository) (days : Z)
| SaveToES (repository : Repository) (activityIndex : F) (vitality : list Z) (body : string)
| ListRequest (url : string)
| Push (repository : Repository)
| ESFlush (index : string)
| ESAliasUpdate (index alias : string).
Arguments Log {F}.
Arguments CounterInc {F}.
Arguments HTTPGet {F}.
Arguments Parse {F}.
Arguments LogBadYamlToFile {F}.
Arguments Clone {F}.
Arguments Activity {F}.
Arguments SaveToES {F}.
Arguments ListRequest {F}.
Arguments Push {F}.
Arguments ESFlush {F}.
Arguments ESAliasUpdate {F}.

(** ** Collaborators and configuration

    Everything the crawler calls outside [crawler.go]: the configuration
    ([viper]), the HTTP client, the manifest parser, git, the activity
    calculator, the index store, and the provider drivers.  Each call is a
    function of its arguments. *)
Class Collaborators := {
  float64 : Type;
  (** [int(x)] for a [float64] *)
  int_of_float64 : float64 -> Z;
  (** configuration *)
  CRAWLED_FILENAME : string;
  ACTIVITY_DAYS : option Z;
  ELASTIC_PUBLICCODE_INDEX : string;
  ELASTIC_PUBLISHERS_INDEX : string;
  ELASTIC_ALIAS : string;
  (** start-up *)
  datadirIsDir : bool;
  ReadAndParseDomains : string -> list Domain * error;
  ClientFactory : error;
  UpdateFromIndicePAIfNeeded : error;
  CreateIndexMapping : string -> error;
  (** [httpclient.GetURL] *)
  GetURL : string -> gmap string string -> HTTPResponse * error;
  (** [parser.ParseInDomain(data, host, useTokenFor, basicAuth)]: the
      administration code it leaves in the parser, and its error *)
  ParseInDomain : Parser -> string -> string -> list string -> list string -> string * error;
  CloneRepository : Domain -> string -> string -> string -> string -> string -> error;
  CalculateRepoActivity : Repository -> Z -> float64 * list float64 * error;
  saveToES : Repository -> float64 -> list Z -> string -> error;
  (** [elastic.Flush], [elastic.AliasUpdate] *)
  Flush : string -> error;
  AliasUpdate : string -> string -> error;
  (** provider drivers: the candidates a call pushes onto the intake
      channel, and what it returns *)
  KnownHost : string -> Domain * error;
  processSingleRepo : Domain -> string -> PA -> list Repository * error;
  generateAPIURLs : Domain -> string -> list string * error;
  processAndGetNextURL : Domain -> string -> PA -> list Repository * string * error;
  GetAllBlackListedRepos : gmap string string;
  (** Go's [strings] package on input that is not ASCII *)
  goUnicode :: GoStrings.Unicode
}.

(** [http.StatusOK] *)
Definition StatusOK : Z := 200.

(** The capacity given to [make(chan Repository, 1000)], in [NewCrawler] and
    in [removeBlackListedFromRepositories]. *)
Definition chanCapacity : nat := 1000.

(** [type Crawler struct]: the Elasticsearch handle and the wait groups
    carry no data of their own. *)
Record Crawler := {
  index : string;
  domains : list Domain;
  repositories : Chan.chan Repository
}.

(** What [removeBlackListedFromRepositories] comes to: it returns, having
    replaced the crawler's channel, or it is stuck sending [repo] into
    [temp]. *)
Inductive filterOutcome :=
| FilterReturns (c : Crawler) (toBeRemoved : list string)
| FilterBlocks (toBeRemoved : list string) (temp : Chan.chan Repository) (repo : Repository).

(** A call either returns, or blocks for ever on a channel operation. *)
Inductive outcome (A : Type) :=
| Returns (a : A)
| Blocks.
Arguments Returns {A}.
Arguments Blocks {A}.

(** ** The crawler *)

Section CrawlerCode.
Context `{Collab : Collaborators}.

Local Abbreviation ev := (event float64).

(** [NewCrawler]: [None] stands for the [log.Fatal] exits. *)
Definition NewCrawler : option Crawler :=
  if negb datadirIsDir then None
  else
    match ReadAndParseDomains "domains.yml" with
    | (_, Some _) => None
    | (ds, None) =>
        if failed ClientFactory then None
        else if failed (CreateIndexMapping ELASTIC_PUBLICCODE_INDEX) then None
        else if failed (CreateIndexMapping ELASTIC_PUBLISHERS_INDEX) then None
        else Some {| index := ELASTIC_PUBLICCODE_INDEX;
                     domains := ds;
                     repositories := Chan.make chanCapacity |}
    end.

(** The loop of [removeBlackListedFromRepositories] over the candidates it
    receives from [c.repositories] until that channel is closed.  [temp] is
    a local variable during the loop: nothing receives from it. *)
Fixpoint filterLoop (listedRepos : gmap string string) (intake : list Repository)
    (toBeRemoved : list string) (temp : Chan.chan Repository)
  : list string * Chan.chan Repository + list string * Chan.chan Repository * Repository :=
  match intake with
  | [] => inl (toBeRemoved, temp)
  | repo :: rest =>
      match listedRepos !! GitCloneURL repo with
      | Some val => filterLoop listedRepos rest (toBeRemoved ++ [val]) temp
      | None =>
          match Chan.send temp repo with
          | Some temp' => filterLoop listedRepos rest toBeRemoved temp'
          | None => inr (toBeRemoved, temp, repo)
          end
      end
  end.

(** [removeBlackListedFromRepositories]; [intake] is the sequence of
    candidates received from [c.repositories].  The warning logged for each
    blacklisted candidate is left out. *)
Definition removeBlackListedFromRepositories (c : Crawler)
    (listedRepos : gmap string string) (intake : list Repository) : filterOutcome :=
  match filterLoop listedRepos intake [] (Chan.make chanCapacity) with
  | inl (toBeRemoved, temp) =>
      FilterReturns {| index := index c; domains := domains c;
                       repositories := Chan.close temp |} toBeRemoved
  | inr (toBeRemoved, temp, repo) => FilterBlocks toBeRemoved temp repo
  end.

(** [validateFile] *)
Definition validateFile (pa : PA) (parser : Parser) (fileRawURL : string) : error :=
  if negb (GoStrings.EqualFold (GoStrings.TrimSpace (CodiceIPA pa))
                               (GoStrings.TrimSpace (ParsedCodiceIPA parser)))
  then Some ("codiceIPA for: " +:+ fileRawURL +:+ " is " +:+ ParsedCodiceIPA parser
             +:+ ", which differs from the one assigned to the org in the whitelist: "
             +:+ CodiceIPA pa)
  else None.

(** [getRemoteFile] *)
Definition getRemoteFile (data fileRawURL : string) (pa : PA) (domain : Domain)
  : list ev * (Parser * error) :=
  let parser := {| Strict := false;
                   RemoteBaseURL := GoStrings.TrimRight fileRawURL CRAWLED_FILENAME;
                   ParsedCodiceIPA := ParsedCodiceIPA NewParser |} in
  let '(code, err) :=
    ParseInDomain parser data (Host domain) (UseTokenFor domain) (BasicAuth domain) in
  let parsed := {| Strict := Strict parser;
                   RemoteBaseURL := RemoteBaseURL parser;
                   ParsedCodiceIPA := code |} in
  match err with
  | Some _ =>
      ([Parse data parser (Host domain);
        Log ErrorLevel "Error parsing publiccode.yml for %s."], (parsed, err))
  | None => ([Parse data parser (Host domain)], (parsed, None))
  end.

(** [validateRemoteFile] *)
Definition validateRemoteFile (data fileRawURL : string) (pa : PA) (domain : Domain)
  : list ev * error :=
  let '(evs, (parser, err)) := getRemoteFile data fileRawURL pa domain in
  match err with
  | Some _ => (evs, err)
  | None => (evs, validateFile pa parser fileRawURL)
  end.

(** [activityDays]: 60 unless [ACTIVITY_DAYS] is set. *)
Definition activityDays : Z :=
  match ACTIVITY_DAYS with
  | Some d => d
  | None => 60%Z
  end.

Definition logIf (err : error) (fmt : string) : list ev :=
  if failed err then [Log ErrorLevel fmt] else [].

(** The end of [ProcessRepo], from "Clone repository" on. *)
Definition cloneAndSave (c : Crawler) (repository : Repository) (body : string) : list ev :=
  let cloneErr :=
    CloneRepository (RepoDomain repository) (Hostname repository) (Name repository)
                    (GitCloneURL repository) (GitBranch repository) (index c) in
  let '(activityIndex, vitality, actErr) := CalculateRepoActivity repository activityDays in
  let vitalitySlice := map int_of_float64 vitality in
  let saveErr := saveToES repository activityIndex vitalitySlice body in
  [Clone (RepoDomain repository) (Hostname repository) (Name repository)
         (GitCloneURL repository) (GitBranch repository) (index c)]
  ++ logIf cloneErr "[%s] error while cloning: %v"
  ++ [Activity repository activityDays]
  ++ logIf actErr "[%s] error calculating activity index: %v"
  ++ [Log InfoLevel "[%s] activity index in the last %d days: %f"]
  ++ [SaveToES repository activityIndex vitalitySlice body]
  ++ logIf saveErr "[%s] error saving to ElastcSearch: %v".

(** [ProcessRepo] *)
Definition ProcessRepo (c : Crawler) (repository : Repository) : list ev :=
  let '(resp, err) := GetURL (FileRawURL repository) (Headers repository) in
  [CounterInc "repository_processed" (index c);
   HTTPGet (FileRawURL repository) (Headers repository)]
  ++
  if negb (StatusCode resp =? StatusOK)%Z || failed err then []
  else
    [Log InfoLevel "[%s] publiccode.yml found at %s"]
    ++
    if UnknownIPA (Pa repository) then
      [Log WarnLevel "When UnknownIPA is set to true IPA match with whitelists will be skipped"]
      ++ cloneAndSave c repository (Body resp)
    else
      let '(evs, verr) :=
        validateRemoteFile (Body resp) (FileRawURL repository) (Pa repository)
                           (RepoDomain repository) in
      match verr with
      | Some _ =>
          evs ++ [Log ErrorLevel "[%s] invalid publiccode.yml: %+v";
                  LogBadYamlToFile (FileRawURL repository)]
      | None => evs ++ cloneAndSave c repository (Body resp)
      end.

(** [ProcessRepositories]: one worker, over the candidates it receives. *)
Definition ProcessRepositories (c : Crawler) (repos : list Repository) : list ev :=
  flat_map (ProcessRepo c) repos.

(** [crawl] starts five [ProcessRepositories] goroutines. *)
Definition workerCount : nat := 5.

(** The candidates that worker [w] receives from [reposChan], in the order
    of [c.repositories]; [assign i] is the worker that wins the [i]-th
    item. *)
Definition share (assign : nat -> nat) (w : nat) (repos : list Repository)
  : list Repository :=
  (filter (fun ir => assign ir.1 `mod` workerCount = w) (imap pair repos)).*2.

(** What a crawl did: the events of the calling goroutine before the pool
    starts, the events of each worker, the events of the finalization, and
    the error returned. *)
Record report := {
  before : list ev;
  workers : list (list ev);
  finalization : list ev;
  result : error
}.

(** The end of [crawl], from "ElasticFlush" on. *)
Definition finalize (c : Crawler) : list ev * error :=
  let flushed :=
    [ESFlush (index c)] ++ logIf (Flush (index c)) "Error flushing ElasticSearch: %v" in
  match AliasUpdate ELASTIC_PUBLISHERS_INDEX ELASTIC_ALIAS with
  | Some e =>
      (flushed ++ [ESAliasUpdate ELASTIC_PUBLISHERS_INDEX ELASTIC_ALIAS],
       Some ("Error updating Elastic Alias: " +:+ e))
  | None =>
      match AliasUpdate (index c) ELASTIC_ALIAS with
      | Some e =>
          (flushed ++ [ESAliasUpdate ELASTIC_PUBLISHERS_INDEX ELASTIC_ALIAS;
                       ESAliasUpdate (index c) ELASTIC_ALIAS],
           Some ("Error updating Elastic Alias: " +:+ e))
      | None =>
          (flushed ++ [ESAliasUpdate ELASTIC_PUBLISHERS_INDEX ELASTIC_ALIAS;
                       ESAliasUpdate (index c) ELASTIC_ALIAS],
           None)
      end
  end.

(** [crawl]: [for repo := range c.repositories] ends only on a closed
    channel. *)
Definition crawl (c : Crawler) (assign : nat -> nat) : outcome report :=
  if Chan.closed (repositories c) then
    let repos := Chan.pending (repositories c) in
    let '(evs, err) := finalize c in
    Returns {| before := [];
               workers := map (fun w => ProcessRepositories c (share assign w repos))
                              (seq 0 workerCount);
               finalization := evs;
               result := err |}
  else Blocks.

Definition withBefore (evs : list ev) (r : outcome report) : outcome report :=
  match r with
  | Returns r =>
      Returns {| before := evs ++ before r; workers := workers r;
                 finalization := finalization r; result := result r |}
  | Blocks => Blocks
  end.

Definition stopped (evs : list ev) (err : error) : outcome report :=
  Returns {| before := evs; workers := []; finalization := []; result := err |}.

(** [CrawlRepo] *)
Definition CrawlRepo (c : Crawler) (repoURL : string) (pa : PA) (assign : nat -> nat)
  : outcome report :=
  let started := [Log InfoLevel "Processing repository: %s"] : list ev in
  match KnownHost repoURL with
  | (_, Some e) => stopped started (Some e)
  | (domain, None) =>
      let '(pushed, err) := processSingleRepo domain repoURL pa in
      match Chan.sendAll (repositories c) pushed with
      | None => Blocks
      | Some ch =>
          match err with
          | Some e => stopped (started ++ map Push pushed) (Some e)
          | None =>
              withBefore (started ++ map Push pushed)
                (crawl {| index := index c; domains := domains c;
                          repositories := Chan.close ch |} assign)
          end
      end
  end.

(** [CrawlPublishers]; [intake] is the sequence in which the candidates
    pushed by the publisher goroutines arrive on [c.repositories]. *)
Definition CrawlPublishers (c : Crawler) (publishers : list PA)
    (intake : list Repository) (assign : nat -> nat)
  : outcome (list string * report) :=
  let started :=
    [Log InfoLevel "%v organizations belonging to %v publishers are going to be scanned"]
    : list ev in
  match removeBlackListedFromRepositories c GetAllBlackListedRepos intake with
  | FilterBlocks _ _ _ => Blocks
  | FilterReturns c' toBeRemoved =>
      match withBefore started (crawl c' assign) with
      | Returns r => Returns (toBeRemoved, r)
      | Blocks => Blocks
      end
  end.

(** How the inner [for] of [CrawlOrg] leaves a seed. *)
Inductive pageEnd := ContinueORG | ReturnFromCrawlOrg.

(** The inner loop of [CrawlOrg] from page [url]; [None] when [fuel] pages
    do not reach the end of the listing. *)
Fixpoint crawlPages (fuel : nat) (domain : Domain) (pa : PA) (url : string)
  : option (list ev * pageEnd) :=
  match fuel with
  | O => None
  | S fuel' =>
      let '(pushed, nextURL, err) := processAndGetNextURL domain url pa in
      let here := ListRequest url :: map Push pushed in
      match err with
      | Some _ =>
          Some (here ++ [Log ErrorLevel "error reading %s repository list: %v; nextURL: %v"],
                ContinueORG)
      | None =>
          if decide (nextURL = "") then Some (here, ReturnFromCrawlOrg)
          else
            match crawlPages fuel' domain pa nextURL with
            | Some (evs, e) => Some (here ++ evs, e)
            | None => None
            end
      end
  end.

(** The loop labelled [ORG]. *)
Fixpoint crawlSeeds (fuel : nat) (domain : Domain) (pa : PA) (orgURLs : list string)
  : option (list ev) :=
  match orgURLs with
  | [] => Some []
  | orgURL :: rest =>
      match crawlPages fuel domain pa orgURL with
      | None => None
      | Some (evs, ReturnFromCrawlOrg) => Some evs
      | Some (evs, ContinueORG) =>
          match crawlSeeds fuel domain pa rest with
          | Some evs' => Some (evs ++ evs')
          | None => None
          end
      end
  end.

(** [CrawlOrg] *)
Definition CrawlOrg (fuel : nat) (orgURL : string) (domain : Domain) (pa : PA)
  : option (list ev) :=
  let '(orgURLs, err) := generateAPIURLs domain orgURL in
  match crawlSeeds fuel domain pa orgURLs with
  | Some evs => Some (logIf err "generateAPIURLs error: %v" ++ evs)
  | None => None
  end.

End CrawlerCode.

(** ** Reading a trace *)

Section Traces.
Context {F : Type}.

(** The arguments of the calls to [logBadYamlToFile]. *)
Definition deadLetters (tr : list (event F)) : list string :=
  omap (fun e => match e with LogBadYamlToFile u => Some u | _ => None end) tr.

Definition isParse (e : event F) : bool :=
  match e with Parse _ _ _ => true | _ => false end.

Definition isClone (e : event F) : bool :=
  match e with Clone _ _ _ _ _ _ => true | _ => false end.

Definition isActivity (e : event F) : bool :=
  match e with Activity _ _ => true | _ => false end.

Definition isSaveToES (e : event F) : bool :=
  match e with SaveToES _ _ _ _ => true | _ => false end.

Definition isDeadLetter (e : event F) : bool :=
  match e with LogBadYamlToFile _ => true | _ => false end.

Definition isListRequest (u : string) (e : event F) : bool :=
  match e with ListRequest v => bool_decide (u = v) | _ => false end.

(** Events of the index store that only flush or repoint, and log lines. *)
Definition isFlushAliasOrLog (e : event F) : bool :=
  match e with
  | ESFlush _ | ESAliasUpdate _ _ | Log _ _ => true
  | _ => false
  end.

End Traces.

(** ** A concrete world, for examples *)

Module Demo.

(** The examples are ASCII: the library's rune paths are never reached,
    and the world answers there by doing nothing. *)
Definition unicode : GoStrings.Unicode :=
  {| GoStrings.trimRightUnicode := fun s _ => s;
     GoStrings.trimSpaceUnicode := fun s => s;
     GoStrings.equalFoldUnicode := String.eqb |}.

Definition github : Domain :=
  {| Host := "github.com"; UseTokenFor := []; BasicAuth := [] |}.

Definition acme : PA :=
  {| PAName := "Acme"; CodiceIPA := "ABC123";
     Organizations := ["https://github.com/acme"]; Repositories := [];
     UnknownIPA := false |}.

(** The same publisher, entered with the "unknown IPA" flag. *)
Definition acmeUnknown : PA :=
  {| PAName := "Acme"; CodiceIPA := "ABC123";
     Organizations := ["https://github.com/acme"]; Repositories := [];
     UnknownIPA := true |}.

Definition repo (pa : PA) (name : string) : Repository :=
  {| Name := name; Hostname := "github.com";
     FileRawURL := "https://raw.githubusercontent.com/acme/" +:+ name +:+ "/master/publiccode.yml";
     GitCloneURL := "https://github.com/acme/" +:+ name +:+ ".git";
     GitBranch := "master"; RepoDomain := github; Pa := pa;
     Headers := ∅; Metadata := "" |}.

Definition orgsSeed : string := "https://api.github.com/orgs/acme/repos".
Definition usersSeed : string := "https://api.github.com/users/acme/repos".
Definition orgsPage2 : string := "https://api.github.com/orgs/acme/repos?page=2".

(** A world in which: the manifest of [r2] is missing (404) and every other
    manifest is [body]; the parser reads the whole manifest as the
    administration code and rejects an empty one; [flushErr] is what
    [elastic.Flush] returns; the listing named [failing] answers with an
    error, the "orgs" listing has two pages and the "users" listing one. *)
Definition world (filename body : string) (flushErr : error) (failing : string)
  : Collaborators :=
  {| float64 := Z;
     int_of_float64 := id;
     CRAWLED_FILENAME := filename;
     ACTIVITY_DAYS := None;
     ELASTIC_PUBLICCODE_INDEX := "publiccode";
     ELASTIC_PUBLISHERS_INDEX := "publishers";
     ELASTIC_ALIAS := "current";
     datadirIsDir := true;
     ReadAndParseDomains := fun _ => ([github], None);
     ClientFactory := None;
     UpdateFromIndicePAIfNeeded := None;
     CreateIndexMapping := fun _ => None;
     GetURL := fun url _ =>
       if String.eqb url (FileRawURL (repo acme "r2"))
       then ({| StatusCode := 404; Body := "" |}, None)
       else ({| StatusCode := 200; Body := body |}, None);
     ParseInDomain := fun _ data _ _ _ =>
       if String.eqb data "" then ("", Some "publiccode.yml is empty") else (data, None);
     CloneRepository := fun _ _ _ _ _ _ => None;
     CalculateRepoActivity := fun _ _ => (0%Z, [], None);
     saveToES := fun _ _ _ _ => None;
     Flush := fun _ => flushErr;
     AliasUpdate := fun _ _ => None;
     KnownHost := fun _ => (github, None);
     processSingleRepo := fun _ url pa => ([repo pa "r1"], None);
     generateAPIURLs := fun _ _ => ([orgsSeed; usersSeed], None);
     processAndGetNextURL := fun _ url pa =>
       if String.eqb url failing then ([], "", Some "404 Not Found")
       else if String.eqb url orgsSeed then ([repo pa "r1"; repo pa "r2"], orgsPage2, None)
       else if String.eqb url orgsPage2 then ([repo pa "r3"], "", None)
       else ([repo pa "u1"], "", None);
     GetAllBlackListedRepos := {[ GitCloneURL (repo acme "r1") := "doc-42" ]};
     goUnicode := unicode
  |}.

(** The usual world: manifest file [publiccode.yml], nothing fails. *)
Definition plain (body : string) : Collaborators :=
  world "publiccode.yml" body None "".

Definition crawler : Crawler :=
  {| index := "publiccode"; domains := [github];
     repositories := Chan.make chanCapacity |}.

(** [n] distinct candidates of publisher [pa], named [c0], [c1], ... *)
Definition repos (pa : PA) (n : nat) : list Repository :=
  map (fun i : nat => repo pa ("c" +:+ pretty i)) (seq 0 n).

(** A world in which the "orgs" listing answers with an error. *)
Definition orgsFails : Collaborators :=
  world "publiccode.yml" "ABC123" None orgsSeed.

(** A world whose manifests live in a sub-directory of the repository. *)
Definition inDocs : Collaborators :=
  world "docs/publiccode.yml" "ABC123" None "".

Definition docsURL : string :=
  "https://raw.githubusercontent.com/acme/r1/master/docs/publiccode.yml".

(** A world whose index store cannot flush. *)
Definition flushFails : Collaborators :=
  world "publiccode.yml" "ABC123" (Some "index_not_found_exception") "".

End Demo.

(** ** Statements to compare the code with *)

(** What the two alias updates of the finalization come to: the first
    failure, wrapped as [crawl] wraps it, or [nil]. *)
Definition aliasResult `{Collab : Collaborators} (c : Crawler) : error :=
  match AliasUpdate ELASTIC_PUBLISHERS_INDEX ELASTIC_ALIAS with
  | Some e => Some ("Error updating Elastic Alias: " +:+ e)
  | None =>
      match AliasUpdate (index c) ELASTIC_ALIAS with
      | Some e => Some ("Error updating Elastic Alias: " +:+ e)
      | None => None
      end
  end.

(** What the finalization is to do, in order: flush the index; log the
    failure of the flush, if it failed, and go on; repoint the alias of the
    publishers index; and, only when that succeeded, repoint the alias of
    the publiccode index. *)
Definition finalizationEvents `{Collab : Collaborators} (c : Crawler)
  : list (event float64) :=
  [ESFlush (index c)]
  ++ (if failed (Flush (index c))
      then [Log ErrorLevel "Error flushing ElasticSearch: %v"] else [])
  ++ [ESAliasUpdate ELASTIC_PUBLISHERS_INDEX ELASTIC_ALIAS]
  ++ (if failed (AliasUpdate ELASTIC_PUBLISHERS_INDEX ELASTIC_ALIAS)
      then [] else [ESAliasUpdate (index c) ELASTIC_ALIAS]).

(** The candidates of an intake that the blacklist leaves alone, and the
    external ids of the others, both in arrival order. *)
Definition forwarded (listedRepos : gmap string string) (intake : list Repository)
  : list Repository :=
  filter (fun r => listedRepos !! GitCloneURL r = None) intake.

Definition removalIds (listedRepos : gmap string string) (intake : list Repository)
  : list string :=
  omap (fun r => listedRepos !! GitCloneURL r) intake.

(** [unicode.ToLower] on a byte below 128. *)
Definition toLower (c : ascii) : ascii :=
  let n := nat_of_ascii c in
  if ((65 <=? n) && (n <=? 90))%nat then ascii_of_nat (n + 32) else c.

(** [t] is [s] without its leading and trailing white space: [s] is [t]
    between two runs of white space, and [t] neither starts nor ends with
    white space. *)
Definition trimmedOf (t s : list ascii) : Prop :=
  exists l r,
    s = l ++ t ++ r
    /\ Forall (fun c => GoStrings.isSpace c = true) l
    /\ Forall (fun c => GoStrings.isSpace c = true) r
    /\ (forall c, head t = Some c -> GoStrings.isSpace c = false)
    /\ (forall c, last t = Some c -> GoStrings.isSpace c = false).

(** Two codes are equal after white-space trimming, letter case ignored. *)
Definition codesMatch (a b : string) : Prop :=
  exists a' b',
    trimmedOf a' (GoStrings.bytes a)
    /\ trimmedOf b' (GoStrings.bytes b)
    /\ map toLower a' = map toLower b'.


(** ** More ways to read a trace *)

Section MoreTraces.
Context {F : Type}.

Definition isLog (e : event F) : bool :=
  match e with Log _ _ => true | _ => false end.

Definition isCounterInc (e : event F) : bool :=
  match e with CounterInc _ _ => true | _ => false end.

Definition isHTTPGet (e : event F) : bool :=
  match e with HTTPGet _ _ => true | _ => false end.

Definition isESFlush (e : event F) : bool :=
  match e with ESFlush _ => true | _ => false end.

(** How many events of a trace satisfy [p]. *)
Definition count (p : event F -> bool) (tr : list (event F)) : nat :=
  length (filter (fun e => p e = true) tr).

(** A trace without its log lines. *)
Definition effects (tr : list (event F)) : list (event F) :=
  filter (fun e => isLog e = false) tr.

(** The listing URLs requested, and the candidates pushed, in order. *)
Definition requests (tr : list (event F)) : list string :=
  omap (fun e => match e with ListRequest u => Some u | _ => None end) tr.

Definition pushes (tr : list (event F)) : list Repository :=
  omap (fun e => match e with Push r => Some r | _ => None end) tr.

(** The alias updates attempted, in order. *)
Definition aliasUpdates (tr : list (event F)) : list (string * string) :=
  omap (fun e => match e with ESAliasUpdate i a => Some (i, a) | _ => None end) tr.

End MoreTraces.

(** The listing URLs [us] are read one after the other by following next
    links: every page but the last answers without error and names the next
    one, and the last page ends the listing as [e] says. *)
Fixpoint followsNext `{Collab : Collaborators} (domain : Domain) (pa : PA)
    (us : list string) (e : pageEnd) : Prop :=
  match us with
  | [] => False
  | u :: rest =>
      match rest with
      | [] =>
          match e with
          | ContinueORG => (processAndGetNextURL domain u pa).2 <> None
          | ReturnFromCrawlOrg =>
              (processAndGetNextURL domain u pa).2 = None
              /\ (processAndGetNextURL domain u pa).1.2 = ""
          end
      | v :: _ =>
          (processAndGetNextURL domain u pa).2 = None
          /\ (processAndGetNextURL domain u pa).1.2 = v
          /\ v <> ""
          /\ followsNext domain pa rest e
      end
  end.

(** ** The first version of the orchestration

    [crawler.go] also holds the earlier version of the crawler: one shared
    wait group and a mutex around validation, one goroutine per candidate
    ([CheckAvailability]), a single seed per organization
    ([ProcessPADomain]), and a whitelist comparison that is exact and
    skipped for empty codes. *)

Module V1.

(** What the first version does to the outside world; the wait group and
    the mutex are part of it. *)
Inductive event (F : Type) :=
| Log (lvl : level) (fmt : string)
| CounterInc (name index : string)
| HTTPGet (url : string) (headers : gmap string string)
| MuLock
| MuUnlock
| Parse (data : string) (p : Parser)
| LogBadYamlToFile (fileRawURL : string)
| SaveToFile (domain : Domain) (hostname name data namespace : string)
| Clone (domain : Domain) (hostname name gitURL gitBranch index : string)
| Activity (domain : Domain) (hostname name : string) (days : Z)
| SaveToES (fileRawURL hashedRepoURL : string) (activityIndex : F)
           (vitality : list Z) (body : string)
| WgAdd
| WgDone
| WgWait
| ListRequest (url : string)
| Push (repository : Repository).
Arguments Log {F}.
Arguments CounterInc {F}.
Arguments HTTPGet {F}.
Arguments MuLock {F}.
Arguments MuUnlock {F}.
Arguments Parse {F}.
Arguments LogBadYamlToFile {F}.
Arguments SaveToFile {F}.
Arguments Clone {F}.
Arguments Activity {F}.
Arguments SaveToES {F}.
Arguments WgAdd {F}.
Arguments WgDone {F}.
Arguments WgWait {F}.
Arguments ListRequest {F}.
Arguments Push {F}.

(** The collaborators whose interface differs in the first version. *)
Class Extras `{Collab : Collaborators} := {
  (** [hash.Write([]byte(gitURL))] and [fmt.Sprintf("%x", hash.Sum(nil))] *)
  sha1Write : string -> error;
  sha1Hex : string -> string;
  (** [parser.Parse(data)]: the administration code it leaves in the
      parser, and its error *)
  ParseManifest : Parser -> string -> string * error;
  SaveToFile_ : Domain -> string -> string -> string -> string -> error;
  CalculateRepoActivity_ : Domain -> string -> string -> Z -> float64 * list float64 * error;
  SaveToES_ : string -> string -> float64 -> list Z -> string -> error;
  generateAPIURL : Domain -> string -> string * error
}.

Section Code.
Context `{Collab : Collaborators} `{Ext : !Extras}.

Local Abbreviation ev := (event float64).

Definition logIf (err : error) (fmt : string) : list ev :=
  if failed err then [Log ErrorLevel fmt] else [].

(** [validateRemoteFile], first version. *)
Definition validateRemoteFile (data fileRawURL : string) (pa : PA) : list ev * error :=
  let parser := {| Strict := Strict NewParser;
                   RemoteBaseURL := GoStrings.TrimRight fileRawURL CRAWLED_FILENAME;
                   ParsedCodiceIPA := ParsedCodiceIPA NewParser |} in
  let '(code, err) := ParseManifest parser data in
  match err with
  | Some _ =>
      ([Parse data parser; Log ErrorLevel "Error parsing publiccode.yml for %s."], err)
  | None =>
      if negb (String.eqb (CodiceIPA pa) "") && negb (String.eqb code "")
         && negb (String.eqb (CodiceIPA pa) code)
      then ([Parse data parser],
            Some ("codiceIPA for: " +:+ fileRawURL +:+ " is " +:+ code
                  +:+ ", which differs from the one assigned to the org in the whitelist: "
                  +:+ CodiceIPA pa))
      else ([Parse data parser], None)
  end.

(** The part of [CheckAvailability] that runs once the manifest is
    accepted, from "Save Metadata" to "Save to ES". *)
Definition saveAll (c : Crawler) (repository : Repository) (hashedRepoURL body : string)
  : list ev :=
  let domain := RepoDomain repository in
  let hostname := Hostname repository in
  let name := Name repository in
  let '(activityIndex, vitality, actErr) :=
    CalculateRepoActivity_ domain hostname name 60 in
  let vitalitySlice := map int_of_float64 vitality in
  [SaveToFile domain hostname name (Metadata repository) (index c +:+ "_metadata")]
  ++ logIf (SaveToFile_ domain hostname name (Metadata repository)
                        (index c +:+ "_metadata"))
           "error saving to file: %v"
  ++ [SaveToFile domain hostname name body (index c)]
  ++ logIf (SaveToFile_ domain hostname name body (index c)) "error saving to file: %v"
  ++ [Clone domain hostname name (GitCloneURL repository) (GitBranch repository) (index c)]
  ++ logIf (CloneRepository domain hostname name (GitCloneURL repository)
                            (GitBranch repository) (index c))
           "error cloning repository %s: %v"
  ++ [Activity domain hostname name 60]
  ++ logIf actErr "error calculating repository Activity to file: %v"
  ++ [Log InfoLevel "Activity Index for %s: %f"]
  ++ [SaveToES (FileRawURL repository) hashedRepoURL activityIndex vitalitySlice body]
  ++ logIf (SaveToES_ (FileRawURL repository) hashedRepoURL activityIndex vitalitySlice body)
           "error saving to ElastcSearch: %v".

(** [CheckAvailability]: one goroutine, for one candidate. *)
Definition CheckAvailability (c : Crawler) (repository : Repository) : list ev :=
  match sha1Write (GitCloneURL repository) with
  | Some _ => [Log ErrorLevel "Error generating the repository hash: %+v"; WgDone]
  | None =>
      let hashedRepoURL := sha1Hex (GitCloneURL repository) in
      let '(resp, err) := GetURL (FileRawURL repository) (Headers repository) in
      [CounterInc "repository_processed" (index c);
       HTTPGet (FileRawURL repository) (Headers repository);
       Log DebugLevel "repository checkAvailability: %s"]
      ++
      if (StatusCode resp =? StatusOK)%Z && negb (failed err) then
        let '(evs, verr) :=
          validateRemoteFile (Body resp) (FileRawURL repository) (Pa repository) in
        [MuLock] ++ evs ++ [MuUnlock]
        ++
        match verr with
        | Some _ =>
            [Log ErrorLevel "%s is an invalid publiccode.";
             Log ErrorLevel "Errors: %+v";
             LogBadYamlToFile (FileRawURL repository);
             WgDone]
        | None => saveAll c repository hashedRepoURL (Body resp) ++ [WgDone]
        end
      else [WgDone]
  end.

(** [ProcessRepositories]: what the calling goroutine does for the
    candidates it receives, and the goroutines it starts, one per
    candidate. *)
Definition ProcessRepositories (c : Crawler) (repos : list Repository)
  : list ev * list (list ev) :=
  (map (fun _ => WgAdd) repos ++ [WgWait], map (CheckAvailability c) repos).

(** The loop of [ProcessPADomain] from page [url]; [None] when [fuel]
    pages do not reach the end of the listing. *)
Fixpoint pages (fuel : nat) (domain : Domain) (pa : PA) (url : string)
  : option (list ev) :=
  match fuel with
  | O => None
  | S fuel' =>
      let '(pushed, nextURL, err) := processAndGetNextURL domain url pa in
      let here :=
        Log DebugLevel "processAndGetNextURL handler: %s"
        :: ListRequest url :: map Push pushed in
      match err with
      | Some _ =>
          Some (here ++ [Log ErrorLevel "error reading %s repository list: %v. NextUrl: %v";
                         Log InfoLevel "Url: %s - is the last one."])
      | None =>
          if decide (nextURL = "")
          then Some (here ++ [Log InfoLevel "Url: %s - is the last one."])
          else
            match pages fuel' domain pa nextURL with
            | Some evs => Some (here ++ evs)
            | None => None
            end
      end
  end.

(** [ProcessPADomain] *)
Definition ProcessPADomain (fuel : nat) (orgURL : string) (domain : Domain) (pa : PA)
  : option (list ev) :=
  let '(apiURL, err) := generateAPIURL domain orgURL in
  match pages fuel domain pa apiURL with
  | Some evs => Some (logIf err "generateAPIURL error: %v" ++ evs)
  | None => None
  end.

End Code.

Section Reading.
Context {F : Type}.

Definition isLog (e : event F) : bool :=
  match e with Log _ _ => true | _ => false end.

Definition isWgAdd (e : event F) : bool :=
  match e with WgAdd => true | _ => false end.

Definition isWgDone (e : event F) : bool :=
  match e with WgDone => true | _ => false end.

Definition isMuLock (e : event F) : bool :=
  match e with MuLock => true | _ => false end.

Definition isMuUnlock (e : event F) : bool :=
  match e with MuUnlock => true | _ => false end.

Definition isParse (e : event F) : bool :=
  match e with Parse _ _ => true | _ => false end.

Definition isSaveToFile (e : event F) : bool :=
  match e with SaveToFile _ _ _ _ _ => true | _ => false end.

Definition isClone (e : event F) : bool :=
  match e with Clone _ _ _ _ _ _ => true | _ => false end.

Definition isSaveToES (e : event F) : bool :=
  match e with SaveToES _ _ _ _ _ => true | _ => false end.

Definition isDeadLetter (e : event F) : bool :=
  match e with LogBadYamlToFile _ => true | _ => false end.

(** Events that store something: a file, a clone, a document. *)
Definition isSaving (e : event F) : bool :=
  match e with
  | SaveToFile _ _ _ _ _ | Clone _ _ _ _ _ _ | SaveToES _ _ _ _ _ => true
  | _ => false
  end.

Definition count (p : event F -> bool) (tr : list (event F)) : nat :=
  length (filter (fun e => p e = true) tr).

Definition effects (tr : list (event F)) : list (event F) :=
  filter (fun e => isLog e = false) tr.

Definition requests (tr : list (event F)) : list string :=
  omap (fun e => match e with ListRequest u => Some u | _ => None end) tr.

(** The mutex is free at the end of [tr], and never locked twice or
    unlocked while free on the way: [held] says whether it is held at the
    start. *)
Fixpoint mutexOK (held : bool) (tr : list (event F)) : bool :=
  match tr with
  | [] => negb held
  | MuLock :: tr' => negb held && mutexOK true tr'
  | MuUnlock :: tr' => held && mutexOK false tr'
  | _ :: tr' => mutexOK held tr'
  end.

(** Every event that happens while the mutex is held satisfies [p];
    [held] says whether it is held at the start. *)
Fixpoint heldOnly (p : event F -> bool) (held : bool) (tr : list (event F)) : bool :=
  match tr with
  | [] => true
  | MuLock :: tr' => heldOnly p true tr'
  | MuUnlock :: tr' => heldOnly p false tr'
  | e :: tr' => (negb held || p e) && heldOnly p held tr'
  end.

(** Every event that satisfies [p] happens while the mutex is held. *)
Fixpoint onlyHeld (p : event F -> bool) (held : bool) (tr : list (event F)) : bool :=
  match tr with
  | [] => true
  | MuLock :: tr' => onlyHeld p true tr'
  | MuUnlock :: tr' => onlyHeld p false tr'
  | e :: tr' => (held || negb (p e)) && onlyHeld p held tr'
  end.

End Reading.

End V1.

(** A world for the first version: the hash never fails, the parser reads
    the whole manifest as the administration code. *)
Definition demoExtras (body : string) : @V1.Extras (Demo.plain body) :=
  {| V1.sha1Write := fun _ => None;
     V1.sha1Hex := fun _ => "da39a3ee5e6b4b0d3255bfef95601890afd80709";
     V1.ParseManifest := fun _ data =>
       if String.eqb data "" then ("", Some "publiccode.yml is empty") else (data, None);
     V1.SaveToFile_ := fun _ _ _ _ _ => None;
     V1.CalculateRepoActivity_ := fun _ _ _ _ =>
       ((0%Z : @float64 (Demo.plain body)), @nil (@float64 (Demo.plain body)), None);
     V1.SaveToES_ := fun _ _ _ _ _ => None;
     V1.generateAPIURL := fun _ _ => (Demo.orgsSeed, Some "unknown API")
  |}.

(** * Properties *)

Section ListFacts.
Context {A : Type} (f : A -> bool).

Lemma dropWhile_split (l : list A) :
  exists pre,
    l = pre ++ GoStrings.dropWhile f l
    /\ Forall (fun c => f c = true) pre
    /\ (forall c, head (GoStrings.dropWhile f l) = Some c -> f c = false).
Proof.
  induction l as [|x l (pre & Hl & Hpre & Hhead)]; cbn [GoStrings.dropWhile].
  - exists []. repeat split; [constructor | discriminate].
  - destruct (f x) eqn:Hx.
    + exists (x :: pre). cbn. rewrite <- Hl. repeat split; [|exact Hhead].
      constructor; assumption.
    + exists []. repeat split; [constructor|].
      intros c [= <-]. exact Hx.
Qed.

Lemma dropWhile_all (l m : list A) :
  Forall (fun c => f c = true) l ->
  GoStrings.dropWhile f (l ++ m) = GoStrings.dropWhile f m.
Proof.
  induction 1 as [|x l Hx _ IH]; [reflexivity|].
  cbn. rewrite Hx. exact IH.
Qed.

Lemma dropWhile_stop (m : list A) :
  (forall c, head m = Some c -> f c = false) -> GoStrings.dropWhile f m = m.
Proof.
  destruct m as [|x m]; [reflexivity|].
  intros Hhead. cbn. rewrite (Hhead x eq_refl). reflexivity.
Qed.

Lemma dropWhileEnd_split (l : list A) :
  exists suf,
    l = GoStrings.dropWhileEnd f l ++ suf
    /\ Forall (fun c => f c = true) suf
    /\ (forall c, last (GoStrings.dropWhileEnd f l) = Some c -> f c = false).
Proof.
  unfold GoStrings.dropWhileEnd.
  destruct (dropWhile_split (reverse l)) as (pre & Hl & Hpre & Hhead).
  exists (reverse pre). split; [|split].
  - rewrite <- reverse_app, <- Hl, reverse_involutive. reflexivity.
  - apply Forall_reverse. exact Hpre.
  - intros c. rewrite last_reverse. apply Hhead.
Qed.

Lemma dropWhileEnd_all (l m : list A) :
  Forall (fun c => f c = true) m ->
  (forall c, last l = Some c -> f c = false) ->
  GoStrings.dropWhileEnd f (l ++ m) = l.
Proof.
  intros Hm Hlast. unfold GoStrings.dropWhileEnd.
  rewrite reverse_app, dropWhile_all by (apply Forall_reverse; exact Hm).
  rewrite dropWhile_stop; [apply reverse_involutive|].
  intros c. rewrite head_reverse. apply Hlast.
Qed.

End ListFacts.

Section StringFacts.
Context `{U : GoStrings.Unicode}.

Lemma bytes_of_bytes (l : list ascii) : GoStrings.bytes (GoStrings.of_bytes l) = l.
Proof. apply list_ascii_of_string_of_list_ascii. Qed.

Lemma of_bytes_bytes (s : string) : GoStrings.of_bytes (GoStrings.bytes s) = s.
Proof. apply string_of_list_ascii_of_string. Qed.

Lemma nat_of_ascii_inj (a b : ascii) : nat_of_ascii a = nat_of_ascii b -> a = b.
Proof.
  intros H. rewrite <- (ascii_nat_embedding a), <- (ascii_nat_embedding b), H.
  reflexivity.
Qed.

Lemma nat_of_toLower (c : ascii) :
  nat_of_ascii (toLower c) =
    if ((65 <=? nat_of_ascii c) && (nat_of_ascii c <=? 90))%nat
    then nat_of_ascii c + 32 else nat_of_ascii c.
Proof.
  unfold toLower.
  destruct ((65 <=? nat_of_ascii c) && (nat_of_ascii c <=? 90))%nat eqn:Hup;
    [|reflexivity].
  apply nat_ascii_embedding.
  apply andb_true_iff in Hup as [_ Hle]. apply Nat.leb_le in Hle. lia.
Qed.

(** One step of [EqualFold] accepts two bytes exactly when they have the
    same lower-case form. *)
Lemma foldEqByte_toLower (a b : ascii) :
  GoStrings.foldEqByte a b = true <-> toLower a = toLower b.
Proof.
  split.
  - intros H. apply nat_of_ascii_inj. rewrite !nat_of_toLower.
    unfold GoStrings.foldEqByte in H.
    destruct (Nat.eqb_spec (nat_of_ascii b) (nat_of_ascii a)) as [->|Hne];
      [reflexivity|].
    apply andb_true_iff in H as [H Hhi]. apply andb_true_iff in H as [Hlo1 Hlo2].
    apply Nat.leb_le in Hlo1, Hlo2. apply Nat.eqb_eq in Hhi.
    destruct (Nat.leb_spec 65 (nat_of_ascii a)), (Nat.leb_spec (nat_of_ascii a) 90),
             (Nat.leb_spec 65 (nat_of_ascii b)), (Nat.leb_spec (nat_of_ascii b) 90);
      cbn [andb]; lia.
  - intros H. apply (f_equal nat_of_ascii) in H. rewrite !nat_of_toLower in H.
    unfold GoStrings.foldEqByte.
    destruct (Nat.eqb_spec (nat_of_ascii b) (nat_of_ascii a)) as [|Hne];
      [reflexivity|].
    apply andb_true_iff. split; [apply andb_true_iff; split|].
    + apply Nat.leb_le.
      destruct (Nat.leb_spec 65 (nat_of_ascii a)), (Nat.leb_spec (nat_of_ascii a) 90),
               (Nat.leb_spec 65 (nat_of_ascii b)), (Nat.leb_spec (nat_of_ascii b) 90);
        cbn [andb] in H; lia.
    + apply Nat.leb_le.
      destruct (Nat.leb_spec 65 (nat_of_ascii a)), (Nat.leb_spec (nat_of_ascii a) 90),
               (Nat.leb_spec 65 (nat_of_ascii b)), (Nat.leb_spec (nat_of_ascii b) 90);
        cbn [andb] in H; lia.
    + apply Nat.eqb_eq.
      destruct (Nat.leb_spec 65 (nat_of_ascii a)), (Nat.leb_spec (nat_of_ascii a) 90),
               (Nat.leb_spec 65 (nat_of_ascii b)), (Nat.leb_spec (nat_of_ascii b) 90);
        cbn [andb] in H; lia.
Qed.

(** The ASCII loop of [EqualFold] compares the lower-case forms of the two
    strings. *)
Lemma equalFoldASCII_toLower (s : string) : forall t,
  GoStrings.equalFoldASCII s t = true
  <-> map toLower (GoStrings.bytes s) = map toLower (GoStrings.bytes t).
Proof.
  unfold GoStrings.bytes.
  induction s as [|a s IH]; intros [|b t];
    cbn [GoStrings.equalFoldASCII list_ascii_of_string map];
    try (split; [discriminate|discriminate]).
  - split; reflexivity.
  - rewrite andb_true_iff, foldEqByte_toLower, IH. split.
    + intros [-> ->]. reflexivity.
    + intros [= Ha Hs]. split; assumption.
Qed.

Lemma isASCII_Forall (s : string) :
  GoStrings.isASCII s = true
  <-> Forall (fun c => GoStrings.isASCIIByte c = true) (GoStrings.bytes s).
Proof.
  unfold GoStrings.isASCII.
  induction (GoStrings.bytes s) as [|c l IH]; cbn [forallb].
  - split; [constructor | reflexivity].
  - rewrite andb_true_iff, IH, Forall_cons. reflexivity.
Qed.

Lemma isASCII_of_bytes (l : list ascii) :
  Forall (fun c => GoStrings.isASCIIByte c = true) l ->
  GoStrings.isASCII (GoStrings.of_bytes l) = true.
Proof. intros H. apply isASCII_Forall. rewrite bytes_of_bytes. exact H. Qed.

(** On an ASCII string [TrimSpace] takes the byte path, and its result is
    ASCII. *)
Lemma TrimSpace_ascii (s : string) :
  GoStrings.isASCII s = true ->
  GoStrings.TrimSpace s
  = GoStrings.of_bytes
      (GoStrings.dropWhileEnd GoStrings.isSpace
         (GoStrings.dropWhile GoStrings.isSpace (GoStrings.bytes s)))
  /\ GoStrings.isASCII (GoStrings.TrimSpace s) = true.
Proof.
  intros Hs. unfold GoStrings.TrimSpace. rewrite Hs. split; [reflexivity|].
  apply isASCII_of_bytes. apply isASCII_Forall in Hs.
  destruct (dropWhile_split GoStrings.isSpace (GoStrings.bytes s)) as (l & Hl & _).
  destruct (dropWhileEnd_split GoStrings.isSpace
              (GoStrings.dropWhile GoStrings.isSpace (GoStrings.bytes s)))
    as (r & Hr & _).
  rewrite Hl, Hr in Hs. apply Forall_app in Hs as [_ Hs].
  apply Forall_app in Hs as [Hs _]. exact Hs.
Qed.

(** [TrimSpace] removes the white space at both ends of an ASCII string,
    and nothing else. *)
Lemma TrimSpace_trimmedOf (s : string) :
  GoStrings.isASCII s = true ->
  trimmedOf (GoStrings.bytes (GoStrings.TrimSpace s)) (GoStrings.bytes s).
Proof.
  intros Hascii. destruct (TrimSpace_ascii s Hascii) as [-> _].
  rewrite bytes_of_bytes.
  destruct (dropWhile_split GoStrings.isSpace (GoStrings.bytes s))
    as (l & Hs & Hl & Hhead).
  destruct (dropWhileEnd_split GoStrings.isSpace
              (GoStrings.dropWhile GoStrings.isSpace (GoStrings.bytes s)))
    as (r & Hm & Hr & Hlast).
  exists l, r. split; [|split; [exact Hl | split; [exact Hr | split; [|exact Hlast]]]].
  - rewrite <- Hm. exact Hs.
  - intros c Hc. apply Hhead. rewrite Hm.
    destruct (GoStrings.dropWhileEnd _ _); [discriminate | exact Hc].
Qed.

Lemma trimmedOf_unique (t s : list ascii) :
  trimmedOf t s ->
  t = GoStrings.dropWhileEnd GoStrings.isSpace (GoStrings.dropWhile GoStrings.isSpace s).
Proof.
  intros (l & r & -> & Hl & Hr & Hhead & Hlast).
  rewrite dropWhile_all by exact Hl.
  destruct t as [|c t].
  - cbn [app]. rewrite <- (app_nil_r r), dropWhile_all by exact Hr. reflexivity.
  - rewrite dropWhile_stop by (intros c' [= <-]; apply Hhead; reflexivity).
    symmetry. apply dropWhileEnd_all; assumption.
Qed.

(** On ASCII codes the test of [validateFile] is the comparison of the
    trimmed codes, letter case ignored. *)
Lemma EqualFold_TrimSpace_codesMatch (a b : string) :
  GoStrings.isASCII a = true -> GoStrings.isASCII b = true ->
  (GoStrings.EqualFold (GoStrings.TrimSpace a) (GoStrings.TrimSpace b) = true
   <-> codesMatch a b).
Proof.
  intros Ha Hb.
  destruct (TrimSpace_ascii a Ha) as [Hta Haa], (TrimSpace_ascii b Hb) as [Htb Hbb].
  unfold GoStrings.EqualFold. rewrite Haa, Hbb. cbn [andb].
  rewrite equalFoldASCII_toLower. split.
  - intros H. exists (GoStrings.bytes (GoStrings.TrimSpace a)),
                     (GoStrings.bytes (GoStrings.TrimSpace b)).
    split; [apply TrimSpace_trimmedOf, Ha|].
    split; [apply TrimSpace_trimmedOf, Hb | exact H].
  - intros (a' & b' & Ha' & Hb' & H).
    apply trimmedOf_unique in Ha', Hb'.
    rewrite Hta, Htb, !bytes_of_bytes, <- Ha', <- Hb'. exact H.
Qed.

Lemma bytes_app (s t : string) :
  GoStrings.bytes (s +:+ t) = GoStrings.bytes s ++ GoStrings.bytes t.
Proof.
  unfold GoStrings.bytes. induction s as [|a s IH]; [reflexivity|].
  change (a :: list_ascii_of_string (s +:+ t)
          = a :: (list_ascii_of_string s ++ list_ascii_of_string t)).
  f_equal. exact IH.
Qed.

Lemma length_bytes (s : string) : length (GoStrings.bytes s) = String.length s.
Proof.
  unfold GoStrings.bytes. induction s as [|a s IH]; cbn; [reflexivity|].
  rewrite IH. reflexivity.
Qed.

Lemma contains_own_bytes (cutset : string) :
  Forall (fun c => GoStrings.contains cutset c = true) (GoStrings.bytes cutset).
Proof.
  apply Forall_forall. intros c Hc. unfold GoStrings.contains.
  apply existsb_exists. exists c. split.
  - apply list_elem_of_In. exact Hc.
  - apply Ascii.eqb_refl.
Qed.

Lemma hasPrefixBytes_app (p l : list ascii) : GoStrings.hasPrefixBytes (p ++ l) p = true.
Proof.
  induction p as [|c p IH]; cbn; [reflexivity|].
  rewrite Ascii.eqb_refl. exact IH.
Qed.

(** Where cutset trimming and suffix removal agree: when the raw URL is a
    prefix, one separator byte that does not occur in the file name, and
    the file name, [TrimRight] leaves the prefix with its separator, which
    is the URL without its file-name suffix. *)
Lemma TrimRight_after_separator (p filename : string) (sep : ascii) :
  GoStrings.isASCII filename = true ->
  GoStrings.contains filename sep = false ->
  GoStrings.TrimRight (p +:+ String sep filename) filename = p +:+ String sep ""
  /\ GoStrings.TrimSuffix (p +:+ String sep filename) filename = p +:+ String sep "".
Proof.
  intros Hascii Hsep.
  assert (Hbytes : GoStrings.bytes (p +:+ String sep filename)
                   = (GoStrings.bytes p ++ [sep]) ++ GoStrings.bytes filename).
  { rewrite bytes_app, <- app_assoc. reflexivity. }
  assert (Hout : GoStrings.of_bytes (GoStrings.bytes p ++ [sep]) = p +:+ String sep "").
  { rewrite <- (of_bytes_bytes (p +:+ String sep "")), bytes_app. reflexivity. }
  split.
  - unfold GoStrings.TrimRight. rewrite Hascii, Hbytes, dropWhileEnd_all; [exact Hout | |].
    + apply contains_own_bytes.
    + intros c. rewrite last_snoc. intros [= <-]. exact Hsep.
  - unfold GoStrings.TrimSuffix, GoStrings.HasSuffix.
    rewrite <- !length_bytes, Hbytes, reverse_app, hasPrefixBytes_app.
    rewrite length_app, Nat.add_sub, take_app_length. exact Hout.
Qed.

End StringFacts.


Section ProcessRepoFacts.
Context `{Collab : Collaborators}.

Local Abbreviation ev := (event float64).

Lemma ProcessRepositories_cons (c : Crawler) (r : Repository) (rest : list Repository) :
  ProcessRepositories c (r :: rest) = ProcessRepo c r ++ ProcessRepositories c rest.
Proof. reflexivity. Qed.

Lemma ProcessRepositories_app (c : Crawler) (l1 l2 : list Repository) :
  ProcessRepositories c (l1 ++ l2) = ProcessRepositories c l1 ++ ProcessRepositories c l2.
Proof. unfold ProcessRepositories. apply flat_map_app. Qed.

(** C6: when the manifest fetch answers with a status other than 200, or
    with a transport error, [ProcessRepo] stops after the fetch: its whole
    effect is the counter increment and the request itself, so nothing is
    parsed or validated, cloned, measured, published or written to the
    dead-letter file. *)
Theorem ProcessRepo_fetch_failed (c : Crawler) (repository : Repository)
    (resp : HTTPResponse) (err : error) :
  GetURL (FileRawURL repository) (Headers repository) = (resp, err) ->
  StatusCode resp <> StatusOK \/ err <> None ->
  ProcessRepo c repository =
    [CounterInc "repository_processed" (index c);
     HTTPGet (FileRawURL repository) (Headers repository)]
  /\ Forall (fun e => isParse e || isClone e || isActivity e || isSaveToES e
                      || isDeadLetter e = false) (ProcessRepo c repository)
  /\ deadLetters (ProcessRepo c repository) = [].
Proof.
  intros Hget Hbad.
  assert (Hstop : negb (StatusCode resp =? StatusOK)%Z || failed err = true).
  { destruct Hbad as [Hcode | Herr].
    - apply orb_true_iff. left. apply negb_true_iff. now apply Z.eqb_neq.
    - apply orb_true_iff. right. destruct err; [reflexivity | congruence]. }
  assert (Heq : ProcessRepo c repository =
    [CounterInc "repository_processed" (index c);
     HTTPGet (FileRawURL repository) (Headers repository)]).
  { unfold ProcessRepo. rewrite Hget, Hstop. reflexivity. }
  rewrite Heq. split; [reflexivity | split].
  - repeat constructor.
  - reflexivity.
Qed.

Lemma cloneAndSave_clones (c : Crawler) (r : Repository) (body : string) :
  Clone (RepoDomain r) (Hostname r) (Name r) (GitCloneURL r) (GitBranch r) (index c)
    ∈ cloneAndSave c r body.
Proof.
  unfold cloneAndSave.
  destruct (CalculateRepoActivity r activityDays) as [[ai vit] aerr].
  apply elem_of_app. left. apply list_elem_of_singleton. reflexivity.
Qed.

Lemma cloneAndSave_saves (c : Crawler) (r : Repository) (body : string) :
  exists activityIndex vitality,
    SaveToES r activityIndex vitality body ∈ cloneAndSave c r body.
Proof.
  unfold cloneAndSave.
  destruct (CalculateRepoActivity r activityDays) as [[ai vit] aerr].
  exists ai, (map int_of_float64 vit).
  rewrite !elem_of_app, !list_elem_of_singleton. tauto.
Qed.

Lemma cloneAndSave_no_validation (c : Crawler) (r : Repository) (body : string) :
  Forall (fun e => isParse e || isDeadLetter e = false) (cloneAndSave c r body).
Proof.
  unfold cloneAndSave.
  destruct (CalculateRepoActivity r activityDays) as [[ai vit] aerr].
  unfold logIf.
  destruct (failed _), (failed aerr), (failed _); repeat constructor.
Qed.





(** [validateRemoteFile] parses and logs, and does nothing else. *)
Lemma validateRemoteFile_events (data url : string) (pa : PA) (d : Domain) :
  Forall (fun e => isClone e || isActivity e || isSaveToES e || isDeadLetter e = false)
         (validateRemoteFile data url pa d).1.
Proof.
  unfold validateRemoteFile, getRemoteFile.
  destruct (ParseInDomain _ _ _ _ _) as [code [e|]]; cbn; repeat constructor.
Qed.

(** C5: for a candidate of a publisher entered with the "unknown IPA" flag,
    [ProcessRepo] never parses the manifest, never compares it with the
    whitelist code and never writes to the dead-letter file; once the
    manifest is fetched it goes straight to cloning and publication,
    whatever administration code the manifest holds. *)
Theorem ProcessRepo_unknownIPA (c : Crawler) (repository : Repository) :
  UnknownIPA (Pa repository) = true ->
  Forall (fun e => isParse e || isDeadLetter e = false) (ProcessRepo c repository)
  /\ forall resp,
       GetURL (FileRawURL repository) (Headers repository) = (resp, None) ->
       StatusCode resp = StatusOK ->
       ProcessRepo c repository =
         [CounterInc "repository_processed" (index c);
          HTTPGet (FileRawURL repository) (Headers repository);
          Log InfoLevel "[%s] publiccode.yml found at %s";
          Log WarnLevel
            "When UnknownIPA is set to true IPA match with whitelists will be skipped"]
         ++ cloneAndSave c repository (Body resp)
       /\ Clone (RepoDomain repository) (Hostname repository) (Name repository)
                (GitCloneURL repository) (GitBranch repository) (index c)
            ∈ ProcessRepo c repository
       /\ exists activityIndex vitality,
            SaveToES repository activityIndex vitality (Body resp)
              ∈ ProcessRepo c repository.
Proof.
  intros Hflag. split.
  - unfold ProcessRepo. rewrite Hflag.
    destruct (GetURL (FileRawURL repository) (Headers repository)) as [resp err].
    destruct (negb (StatusCode resp =? StatusOK)%Z || failed err).
    + repeat constructor.
    + repeat (apply Forall_cons; split; [reflexivity|]).
      apply cloneAndSave_no_validation.
  - intros resp Hget Hok.
    assert (Heq : ProcessRepo c repository =
      [CounterInc "repository_processed" (index c);
       HTTPGet (FileRawURL repository) (Headers repository);
       Log InfoLevel "[%s] publiccode.yml found at %s";
       Log WarnLevel
         "When UnknownIPA is set to true IPA match with whitelists will be skipped"]
      ++ cloneAndSave c repository (Body resp)).
    { unfold ProcessRepo. rewrite Hget, Hok, Hflag. reflexivity. }
    rewrite Heq. split; [reflexivity|]. split.
    + apply elem_of_app. right. apply cloneAndSave_clones.
    + destruct (cloneAndSave_saves c repository (Body resp)) as (ai & vit & Hin).
      exists ai, vit. apply elem_of_app. now right.
Qed.

(** The two ways in which validation fails: the parser rejects the
    manifest, or [validateFile] rejects the parsed code. *)
Lemma validateRemoteFile_parse_error (data url code e : string) (pa : PA) (d : Domain) :
  ParseInDomain {| Strict := false;
                   RemoteBaseURL := GoStrings.TrimRight url CRAWLED_FILENAME;
                   ParsedCodiceIPA := "" |}
                data (Host d) (UseTokenFor d) (BasicAuth d) = (code, Some e) ->
  (validateRemoteFile data url pa d).2 = Some e.
Proof.
  intros Hparse. unfold validateRemoteFile, getRemoteFile. cbn [ParsedCodiceIPA NewParser].
  rewrite Hparse. reflexivity.
Qed.

(** C7, as the code has it: when the manifest of a candidate is fetched
    and fails validation (the parser rejects it, or its administration code
    differs from the whitelist code), [ProcessRepo] hands the manifest URL,
    and nothing else, to [logBadYamlToFile], and returns: no clone, no
    activity computation, no publication; the worker then goes on with the
    candidates that follow. *)
Theorem ProcessRepo_validation_failed (c : Crawler) (repository : Repository)
    (resp : HTTPResponse) (evs : list ev) (e : string) (rest : list Repository) :
  UnknownIPA (Pa repository) = false ->
  GetURL (FileRawURL repository) (Headers repository) = (resp, None) ->
  StatusCode resp = StatusOK ->
  validateRemoteFile (Body resp) (FileRawURL repository) (Pa repository)
                     (RepoDomain repository) = (evs, Some e) ->
  ProcessRepo c repository =
    [CounterInc "repository_processed" (index c);
     HTTPGet (FileRawURL repository) (Headers repository);
     Log InfoLevel "[%s] publiccode.yml found at %s"]
    ++ evs
    ++ [Log ErrorLevel "[%s] invalid publiccode.yml: %+v";
        LogBadYamlToFile (FileRawURL repository)]
  /\ deadLetters (ProcessRepo c repository) = [FileRawURL repository]
  /\ Forall (fun e => isClone e || isActivity e || isSaveToES e = false)
            (ProcessRepo c repository)
  /\ ProcessRepositories c (repository :: rest)
     = ProcessRepo c repository ++ ProcessRepositories c rest.
Proof.
  intros Hflag Hget Hok Hval.
  assert (Heq : ProcessRepo c repository =
    [CounterInc "repository_processed" (index c);
     HTTPGet (FileRawURL repository) (Headers repository);
     Log InfoLevel "[%s] publiccode.yml found at %s"]
    ++ evs
    ++ [Log ErrorLevel "[%s] invalid publiccode.yml: %+v";
        LogBadYamlToFile (FileRawURL repository)]).
  { unfold ProcessRepo. rewrite Hget, Hok, Hflag, Hval. reflexivity. }
  pose proof (validateRemoteFile_events (Body resp) (FileRawURL repository)
                (Pa repository) (RepoDomain repository)) as Hevs.
  rewrite Hval in Hevs. cbn [fst] in Hevs.
  split; [exact Heq|]. split; [|split].
  - rewrite Heq. unfold deadLetters. rewrite !omap_app.
    assert (Hnone : omap (fun e0 : ev => match e0 with
                                         | LogBadYamlToFile u => Some u
                                         | _ => None
                                         end) evs = []).
    { clear -Hevs. induction evs as [|x xs IH]; [reflexivity|].
      inversion Hevs as [|? ? Hx Hxs]; subst.
      cbn. rewrite (IH Hxs). destruct x; try reflexivity. discriminate Hx. }
    rewrite Hnone. reflexivity.
  - rewrite Heq. rewrite !Forall_app. split; [repeat constructor|]. split.
    + eapply Forall_impl; [exact Hevs|]. intros x Hx. cbn beta in Hx.
      destruct x; try reflexivity; discriminate Hx.
    + repeat constructor.
  - apply ProcessRepositories_cons.
Qed.

End ProcessRepoFacts.

Section ValidationFacts.
Context `{Collab : Collaborators}.



End ValidationFacts.

Section ChannelFacts.
Context {A : Type}.

Lemma send_Some (ch : Chan.chan A) (x : A) :
  length (Chan.pending ch) < Chan.cap ch ->
  Chan.send ch x =
    Some {| Chan.cap := Chan.cap ch; Chan.pending := Chan.pending ch ++ [x];
            Chan.closed := Chan.closed ch |}.
Proof.
  intros Hlt. unfold Chan.send.
  destruct (Nat.ltb_spec (length (Chan.pending ch)) (Chan.cap ch)); [reflexivity | lia].
Qed.

Lemma send_None (ch : Chan.chan A) (x : A) :
  Chan.cap ch <= length (Chan.pending ch) -> Chan.send ch x = None.
Proof.
  intros Hge. unfold Chan.send.
  destruct (Nat.ltb_spec (length (Chan.pending ch)) (Chan.cap ch)); [lia | reflexivity].
Qed.

(** Sends without a receiver succeed as long as the buffer has room. *)
Lemma sendAll_room (xs : list A) : forall ch : Chan.chan A,
  length (Chan.pending ch) + length xs <= Chan.cap ch ->
  Chan.sendAll ch xs =
    Some {| Chan.cap := Chan.cap ch; Chan.pending := Chan.pending ch ++ xs;
            Chan.closed := Chan.closed ch |}.
Proof.
  induction xs as [|x xs IH]; intros ch Hroom; cbn [Chan.sendAll].
  - rewrite app_nil_r. destruct ch; reflexivity.
  - cbn [length] in Hroom. rewrite send_Some by lia.
    rewrite IH; cbn [Chan.cap Chan.pending Chan.closed].
    + rewrite <- app_assoc. reflexivity.
    + rewrite length_app. cbn [length]. lia.
Qed.

(** The send that finds the buffer full blocks. *)
Lemma sendAll_full (xs : list A) (x : A) (ch : Chan.chan A) :
  length (Chan.pending ch) + length xs = Chan.cap ch ->
  Chan.sendAll ch (xs ++ [x]) = None.
Proof.
  revert ch. induction xs as [|y xs IH]; intros ch Hfull; cbn [Chan.sendAll app].
  - cbn [length] in Hfull. rewrite send_None by lia. reflexivity.
  - cbn [length] in Hfull. rewrite send_Some by lia. apply IH.
    cbn [Chan.cap Chan.pending]. rewrite length_app. cbn [length]. lia.
Qed.

End ChannelFacts.

Section FilterFacts.
Context `{Collab : Collaborators}.

Lemma forwarded_listed (listed : gmap string string) (r : Repository)
    (rest : list Repository) (val : string) :
  listed !! GitCloneURL r = Some val ->
  forwarded listed (r :: rest) = forwarded listed rest
  /\ removalIds listed (r :: rest) = val :: removalIds listed rest.
Proof.
  intros Hin. unfold forwarded, removalIds. split.
  - rewrite filter_cons_False; [reflexivity | congruence].
  - cbn. rewrite Hin. reflexivity.
Qed.

Lemma forwarded_unlisted (listed : gmap string string) (r : Repository)
    (rest : list Repository) :
  listed !! GitCloneURL r = None ->
  forwarded listed (r :: rest) = r :: forwarded listed rest
  /\ removalIds listed (r :: rest) = removalIds listed rest.
Proof.
  intros Hout. unfold forwarded, removalIds. split.
  - rewrite filter_cons_True; [reflexivity | exact Hout].
  - cbn. rewrite Hout. reflexivity.
Qed.

(** With room for everything it forwards, the loop ends with the removal
    ids and the forwarded candidates, each in arrival order. *)
Lemma filterLoop_room (listed : gmap string string) (intake : list Repository) :
  forall (toBeRemoved : list string) (temp : Chan.chan Repository),
  length (Chan.pending temp) + length (forwarded listed intake) <= Chan.cap temp ->
  filterLoop listed intake toBeRemoved temp =
    inl (toBeRemoved ++ removalIds listed intake,
         {| Chan.cap := Chan.cap temp;
            Chan.pending := Chan.pending temp ++ forwarded listed intake;
            Chan.closed := Chan.closed temp |}).
Proof.
  induction intake as [|r rest IH]; intros tbr temp Hroom; cbn [filterLoop].
  - unfold forwarded, removalIds. cbn. rewrite !app_nil_r. destruct temp; reflexivity.
  - destruct (listed !! GitCloneURL r) as [val|] eqn:Hr.
    + destruct (forwarded_listed listed r rest val Hr) as [Hf Hi].
      rewrite Hf in *. rewrite Hi, IH by exact Hroom.
      rewrite <- app_assoc. reflexivity.
    + destruct (forwarded_unlisted listed r rest Hr) as [Hf Hi].
      rewrite Hf in *. rewrite Hi. cbn [length] in Hroom.
      rewrite send_Some by lia.
      rewrite IH; cbn [Chan.cap Chan.pending Chan.closed].
      * rewrite <- app_assoc. reflexivity.
      * rewrite length_app. cbn [length]. lia.
Qed.

(** Without room, the loop is stuck on the first candidate that finds
    [temp] full: the candidates before it have been classified. *)
Lemma filterLoop_stuck (listed : gmap string string) (intake : list Repository) :
  forall (toBeRemoved : list string) (temp : Chan.chan Repository),
  length (Chan.pending temp) <= Chan.cap temp ->
  Chan.cap temp < length (Chan.pending temp) + length (forwarded listed intake) ->
  exists pre repo post,
    intake = pre ++ repo :: post
    /\ listed !! GitCloneURL repo = None
    /\ length (Chan.pending temp) + length (forwarded listed pre) = Chan.cap temp
    /\ filterLoop listed intake toBeRemoved temp =
         inr (toBeRemoved ++ removalIds listed pre,
              {| Chan.cap := Chan.cap temp;
                 Chan.pending := Chan.pending temp ++ forwarded listed pre;
                 Chan.closed := Chan.closed temp |},
              repo).
Proof.
  induction intake as [|r rest IH]; intros tbr temp Hle Hover.
  - unfold forwarded in Hover. cbn in Hover. lia.
  - cbn [filterLoop].
    destruct (listed !! GitCloneURL r) as [val|] eqn:Hr.
    + destruct (forwarded_listed listed r rest val Hr) as [Hf Hi].
      rewrite Hf in Hover.
      destruct (IH (tbr ++ [val]) temp Hle Hover) as (pre & repo & post & -> & Hrepo & Hlen & Hrun).
      exists (r :: pre), repo, post.
      destruct (forwarded_listed listed r pre val Hr) as [Hf' Hi'].
      rewrite Hf', Hi', Hrun, <- app_assoc. auto.
    + destruct (forwarded_unlisted listed r rest Hr) as [Hf Hi].
      rewrite Hf in Hover. cbn [length] in Hover.
      destruct (decide (length (Chan.pending temp) < Chan.cap temp)) as [Hlt|Hfull].
      * rewrite send_Some by exact Hlt.
        destruct (IH tbr {| Chan.cap := Chan.cap temp;
                            Chan.pending := Chan.pending temp ++ [r];
                            Chan.closed := Chan.closed temp |})
          as (pre & repo & post & -> & Hrepo & Hlen & Hrun);
          cbn [Chan.cap Chan.pending Chan.closed] in *.
        { rewrite length_app. cbn [length]. lia. }
        { rewrite length_app. cbn [length]. lia. }
        exists (r :: pre), repo, post.
        destruct (forwarded_unlisted listed r pre Hr) as [Hf' Hi'].
        rewrite Hf', Hi', Hrun, <- app_assoc.
        rewrite length_app in Hlen. cbn [length] in *.
        repeat split; [exact Hrepo | lia].
      * rewrite send_None by lia.
        exists [], r, rest. unfold forwarded, removalIds. cbn.
        rewrite !app_nil_r. destruct temp; cbn in *. repeat split; [exact Hr | lia].
Qed.

(** C10: the filter sends every candidate it forwards into [temp], a
    channel of capacity 1000 created in the function and not yet published,
    so without a receiver.  Either the intake holds at most 1000 candidates
    that are not blacklisted, and the function returns the removal list and
    leaves them in the closed replacement channel; or it holds more, and the
    function is stuck for ever sending the 1001st of them, with [temp]
    full. *)
Theorem removeBlackListed_returns_iff_room (c : Crawler)
    (listedRepos : gmap string string) (intake : list Repository) :
  (length (forwarded listedRepos intake) <= 1000
   /\ removeBlackListedFromRepositories c listedRepos intake =
        FilterReturns
          {| index := index c; domains := domains c;
             repositories := {| Chan.cap := 1000;
                                Chan.pending := forwarded listedRepos intake;
                                Chan.closed := true |} |}
          (removalIds listedRepos intake))
  \/
  (1000 < length (forwarded listedRepos intake)
   /\ exists pre repo post,
        intake = pre ++ repo :: post
        /\ listedRepos !! GitCloneURL repo = None
        /\ length (forwarded listedRepos pre) = 1000
        /\ removeBlackListedFromRepositories c listedRepos intake =
             FilterBlocks (removalIds listedRepos pre)
               {| Chan.cap := 1000;
                  Chan.pending := forwarded listedRepos pre;
                  Chan.closed := false |}
               repo).
Proof.
  change 1000 with chanCapacity.
  unfold removeBlackListedFromRepositories.
  destruct (decide (length (forwarded listedRepos intake) <= chanCapacity)) as [Hle|Hgt].
  - left. split; [exact Hle|].
    rewrite filterLoop_room by (cbn [Chan.make Chan.pending Chan.cap length]; lia).
    reflexivity.
  - right. split; [lia|].
    destruct (filterLoop_stuck listedRepos intake [] (Chan.make chanCapacity))
      as (pre & repo & post & Hsplit & Hrepo & Hlen & Hrun).
    { cbn [Chan.make Chan.pending Chan.cap length]. lia. }
    { cbn [Chan.make Chan.pending Chan.cap length]. lia. }
    exists pre, repo, post. rewrite Hrun.
    cbn [Chan.make Chan.pending Chan.cap Chan.closed length] in *.
    repeat split; [exact Hsplit | exact Hrepo | lia].
Qed.

End FilterFacts.

(** C3 fails on an intake of 1001 candidates, none of them blacklisted: the
    filter never returns a removal list, and the last candidate is never
    forwarded; the function is stuck sending it into the full [temp]. *)
Theorem removeBlackListed_stuck_at_1001 :
  removeBlackListedFromRepositories Demo.crawler ∅ (Demo.repos Demo.acme 1001) =
    FilterBlocks []
      {| Chan.cap := 1000; Chan.pending := Demo.repos Demo.acme 1000;
         Chan.closed := false |}
      (Demo.repo Demo.acme "c1000").
Proof. vm_compute. reflexivity. Qed.

Section CrawlFacts.
Context `{Collab : Collaborators}.

Lemma finalize_result (c : Crawler) : (finalize c).2 = aliasResult c.
Proof.
  unfold finalize, aliasResult.
  destruct (AliasUpdate ELASTIC_PUBLISHERS_INDEX ELASTIC_ALIAS); [reflexivity|].
  destruct (AliasUpdate (index c) ELASTIC_ALIAS); reflexivity.
Qed.

(** The finalization flushes, repoints and logs; it does nothing else. *)
Lemma finalize_events (c : Crawler) :
  Forall (fun e => isFlushAliasOrLog e = true) (finalize c).1.
Proof.
  unfold finalize, logIf.
  destruct (AliasUpdate ELASTIC_PUBLISHERS_INDEX ELASTIC_ALIAS);
    [|destruct (AliasUpdate (index c) ELASTIC_ALIAS)];
    destruct (failed (Flush (index c))); cbn; repeat constructor.
Qed.

Lemma crawl_closed (c : Crawler) (assign : nat -> nat) :
  Chan.closed (repositories c) = true ->
  crawl c assign =
    Returns {| before := [];
               workers := map (fun w => ProcessRepositories c
                                          (share assign w (Chan.pending (repositories c))))
                              (seq 0 workerCount);
               finalization := (finalize c).1;
               result := aliasResult c |}.
Proof.
  intros Hclosed. unfold crawl. rewrite Hclosed, <- finalize_result.
  destruct (finalize c); reflexivity.
Qed.

Lemma finalize_trace (c : Crawler) : (finalize c).1 = finalizationEvents c.
Proof.
  unfold finalize, finalizationEvents, logIf.
  destruct (AliasUpdate ELASTIC_PUBLISHERS_INDEX ELASTIC_ALIAS);
    [|destruct (AliasUpdate (index c) ELASTIC_ALIAS)];
    destruct (failed (Flush (index c))); reflexivity.
Qed.

(** C1, as the code has it: [crawl] returns on a closed channel, and what it
    returns is decided by the two alias updates alone (the first that fails
    is returned, wrapped); the error of the flush is logged and dropped,
    and the second alias update is not attempted when the first failed.
    [CrawlPublishers], and [CrawlRepo] once the candidate is pushed, return
    that same result after that same finalization.  The workers' events,
    publications included, do not depend on the finalization, which only
    flushes, repoints and logs. *)
Theorem crawl_result_is_alias_result (c : Crawler) (assign : nat -> nat) :
  Chan.closed (repositories c) = true ->
  (exists r,
     crawl c assign = Returns r
     /\ result r = aliasResult c
     /\ workers r = map (fun w => ProcessRepositories c
                                    (share assign w (Chan.pending (repositories c))))
                        (seq 0 workerCount)
     /\ finalization r = finalizationEvents c
     /\ Forall (fun e => isFlushAliasOrLog e = true) (finalization r))
  /\ (forall c0 publishers intake toBeRemoved r,
        index c0 = index c ->
        CrawlPublishers c0 publishers intake assign = Returns (toBeRemoved, r) ->
        result r = aliasResult c
        /\ finalization r = finalizationEvents c
        /\ Forall (fun e => isFlushAliasOrLog e = true) (finalization r))
  /\ (forall c0 repoURL pa domain pushed r,
        index c0 = index c ->
        KnownHost repoURL = (domain, None) ->
        processSingleRepo domain repoURL pa = (pushed, None) ->
        CrawlRepo c0 repoURL pa assign = Returns r ->
        result r = aliasResult c
        /\ finalization r = finalizationEvents c
        /\ Forall (fun e => isFlushAliasOrLog e = true) (finalization r)).
Proof.
  intros Hclosed. split; [|split].
  - eexists. split; [apply crawl_closed, Hclosed|]. cbn.
    split; [reflexivity|]. split; [reflexivity|].
    split; [apply finalize_trace | apply finalize_events].
  - intros c0 publishers intake tbr r Hidx Hrun.
    unfold CrawlPublishers, removeBlackListedFromRepositories in Hrun.
    destruct (filterLoop _ _ _ _) as [[tbr' temp]|[[? ?] ?]]; [|discriminate].
    rewrite crawl_closed in Hrun by reflexivity.
    cbn in Hrun. injection Hrun as <- <-. cbn.
    split; [|split; [|apply finalize_events]].
    + unfold aliasResult. cbn. rewrite Hidx. reflexivity.
    + rewrite finalize_trace. unfold finalizationEvents. cbn. rewrite Hidx. reflexivity.
  - intros c0 repoURL pa domain pushed r Hidx Hhost Hpush Hrun.
    unfold CrawlRepo in Hrun. rewrite Hhost, Hpush in Hrun.
    destruct (Chan.sendAll _ _) as [ch|]; [|discriminate].
    rewrite crawl_closed in Hrun by reflexivity.
    cbn in Hrun. injection Hrun as <-. cbn.
    split; [|split; [|apply finalize_events]].
    + unfold aliasResult. cbn. rewrite Hidx. reflexivity.
    + rewrite finalize_trace. unfold finalizationEvents. cbn. rewrite Hidx. reflexivity.
Qed.

(** C9, as the code has it: the intake channel that [NewCrawler] creates
    has capacity 1000.  While fewer than 1000 candidates are pending a push
    is buffered at once; a push that finds 1000 pending blocks. *)
Theorem intake_channel_capacity (c : Crawler) :
  NewCrawler = Some c ->
  Chan.cap (repositories c) = 1000
  /\ Chan.pending (repositories c) = []
  /\ (forall xs, length xs <= 1000 ->
        Chan.sendAll (repositories c) xs =
          Some {| Chan.cap := 1000; Chan.pending := xs;
                  Chan.closed := Chan.closed (repositories c) |})
  /\ (forall xs x, length xs = 1000 ->
        Chan.sendAll (repositories c) (xs ++ [x]) = None).
Proof.
  change 1000 with chanCapacity.
  intros Hnew.
  assert (Hch : repositories c = Chan.make chanCapacity).
  { unfold NewCrawler in Hnew.
    destruct (negb datadirIsDir); [discriminate|].
    destruct (ReadAndParseDomains "domains.yml") as [ds [e|]]; [discriminate|].
    destruct (failed ClientFactory); [discriminate|].
    destruct (failed (CreateIndexMapping ELASTIC_PUBLICCODE_INDEX)); [discriminate|].
    destruct (failed (CreateIndexMapping ELASTIC_PUBLISHERS_INDEX)); [discriminate|].
    injection Hnew as <-. reflexivity. }
  rewrite Hch. split; [reflexivity|]. split; [reflexivity|]. split.
  - intros xs Hlen. rewrite sendAll_room; [reflexivity|].
    cbn [Chan.make Chan.pending Chan.cap length]. lia.
  - intros xs x Hlen. apply sendAll_full.
    cbn [Chan.make Chan.pending Chan.cap length]. lia.
Qed.

End CrawlFacts.

(** C1 as stated fails: the flush of the index fails, both alias updates
    succeed, and [CrawlPublishers] returns no error. *)
Lemma flush_failure_not_returned :
  let W := Demo.flushFails in
  Flush (index Demo.crawler) = Some "index_not_found_exception"
  /\ match CrawlPublishers Demo.crawler [Demo.acme] (Demo.repos Demo.acme 3) id with
     | Returns (toBeRemoved, r) => Some (toBeRemoved, result r)
     | Blocks => None
     end = Some ([], None).
Proof.
  intros W. split; [reflexivity|]. vm_compute. reflexivity.
Qed.

Lemma crawl_result_is_alias_result_witness :
  let W := Demo.flushFails in
  let c := {| index := "publiccode"; domains := [Demo.github];
              repositories := Chan.close (Chan.make chanCapacity) |} in
  Chan.closed (repositories c) = true
  /\ exists r,
       crawl c id = Returns r
       /\ result r = None
       /\ finalization r
          = [ESFlush "publiccode";
             Log ErrorLevel "Error flushing ElasticSearch: %v";
             ESAliasUpdate "publishers" "current";
             ESAliasUpdate "publiccode" "current"].
Proof.
  intros W c. split; [reflexivity|].
  destruct (@crawl_result_is_alias_result W c id eq_refl)
    as [(r & Hrun & Hres & _ & Hfin & _) _].
  exists r. split; [exact Hrun|]. split; [exact Hres | exact Hfin].
Defined.

(** C9 as stated fails: after 1000 pushes with nothing received, the next
    push onto the intake channel blocks. *)
Lemma intake_push_blocks :
  let W := Demo.plain "ABC123" in
  let full := {| Chan.cap := 1000; Chan.pending := Demo.repos Demo.acme 1000;
                 Chan.closed := false |} in
  NewCrawler = Some Demo.crawler
  /\ Chan.sendAll (repositories Demo.crawler) (Demo.repos Demo.acme 1000) = Some full
  /\ Chan.send full (Demo.repo Demo.acme "late") = None.
Proof.
  intros W full. split; [reflexivity|]. split; vm_compute; reflexivity.
Qed.

Lemma intake_channel_capacity_witness :
  let W := Demo.plain "ABC123" in
  NewCrawler = Some Demo.crawler
  /\ Chan.cap (repositories Demo.crawler) = 1000
  /\ Chan.sendAll (repositories Demo.crawler) (Demo.repos Demo.acme 2 ++ [Demo.repo Demo.acme "late"])
     <> None.
Proof.
  intros W. split; [reflexivity|].
  destruct (@intake_channel_capacity W Demo.crawler eq_refl) as (Hcap & _ & Hsend & _).
  split; [exact Hcap|].
  rewrite Hsend; [discriminate | vm_compute; lia].
Defined.

Section CrawlOrgFacts.
Context `{Collab : Collaborators}.

(** How the pagination of one seed ends: on the page that answers with an
    error, or on the page that has no next URL. *)
Lemma crawlPages_end (domain : Domain) (pa : PA) (fuel : nat) :
  forall url evs e,
  crawlPages fuel domain pa url = Some (evs, e) ->
  exists last pushed next err,
    processAndGetNextURL domain last pa = (pushed, next, err)
    /\ ListRequest last ∈ evs
    /\ match e with
       | ContinueORG => err <> None
       | ReturnFromCrawlOrg => err = None /\ next = ""
       end.
Proof.
  induction fuel as [|fuel IH]; intros url evs e Hrun; [discriminate|].
  cbn [crawlPages] in Hrun.
  destruct (processAndGetNextURL domain url pa) as [[pushed next] err] eqn:Hpage.
  destruct err as [msg|].
  - injection Hrun as <- <-. exists url, pushed, next, (Some msg).
    split; [exact Hpage|]. split; [apply list_elem_of_here | discriminate].
  - destruct (decide (next = "")) as [->|Hmore].
    + injection Hrun as <- <-. exists url, pushed, "", None.
      split; [exact Hpage|]. split; [apply list_elem_of_here | auto].
    + destruct (crawlPages fuel domain pa next) as [[evs' e']|] eqn:Hrest; [|discriminate].
      injection Hrun as <- <-.
      destruct (IH next evs' e' Hrest) as (last & pushed' & next' & err' & Hlast & Hin & Hend).
      exists last, pushed', next', err'. split; [exact Hlast|]. split; [|exact Hend].
      apply list_elem_of_further, elem_of_app. right. exact Hin.
Qed.

(** C2, as the code has it: when the pagination of a seed stops on an
    error, the loop goes on with the seeds that follow; when it reaches the
    page without a next URL, [CrawlOrg] returns and the seeds that follow
    are not requested. *)
Theorem crawlSeeds_first_seed (fuel : nat) (domain : Domain) (pa : PA)
    (orgURL : string) (rest : list string) (evs : list (event float64)) (e : pageEnd) :
  crawlPages fuel domain pa orgURL = Some (evs, e) ->
  crawlSeeds fuel domain pa (orgURL :: rest) =
    match e with
    | ContinueORG => (fun evs' => evs ++ evs') <$> crawlSeeds fuel domain pa rest
    | ReturnFromCrawlOrg => Some evs
    end
  /\ exists last pushed next err,
       processAndGetNextURL domain last pa = (pushed, next, err)
       /\ ListRequest last ∈ evs
       /\ match e with
          | ContinueORG => err <> None
          | ReturnFromCrawlOrg => err = None /\ next = ""
          end.
Proof.
  intros Hrun. split; [|eapply crawlPages_end; exact Hrun].
  cbn [crawlSeeds]. rewrite Hrun. destruct e; [|reflexivity].
  destruct (crawlSeeds fuel domain pa rest); reflexivity.
Qed.

(** Enough fuel: a listing whose pages are all distinct is read to its end
    within as many steps as it has pages. *)
Lemma crawlPages_fuel_mono (domain : Domain) (pa : PA) (fuel : nat) :
  forall url r, crawlPages fuel domain pa url = Some r ->
  crawlPages (S fuel) domain pa url = Some r.
Proof.
  induction fuel as [|fuel IH]; intros url r Hrun; [discriminate|].
  cbn [crawlPages] in Hrun. change (crawlPages (S (S fuel)) domain pa url) with
    (let '(pushed, nextURL, err) := processAndGetNextURL domain url pa in
     let here := ListRequest url :: map Push pushed in
     match err with
     | Some _ =>
         Some (here ++ [Log ErrorLevel "error reading %s repository list: %v; nextURL: %v"],
               ContinueORG)
     | None =>
         if decide (nextURL = "") then Some (here, ReturnFromCrawlOrg)
         else
           match crawlPages (S fuel) domain pa nextURL with
           | Some (evs, e) => Some (here ++ evs, e)
           | None => None
           end
     end).
  destruct (processAndGetNextURL domain url pa) as [[pushed next] err].
  destruct err; [exact Hrun|].
  destruct (decide (next = "")); [exact Hrun|].
  destruct (crawlPages fuel domain pa next) as [r'|] eqn:Hrest; [|discriminate].
  rewrite (IH next r' Hrest). exact Hrun.
Qed.

End CrawlOrgFacts.

(** The "orgs" listing fails, and the "users" listing is read next. *)
Lemma crawlSeeds_first_seed_witness :
  let W := Demo.orgsFails in
  crawlPages 5 Demo.github Demo.acme Demo.orgsSeed
    = Some ([ListRequest Demo.orgsSeed;
             Log ErrorLevel "error reading %s repository list: %v; nextURL: %v"],
            ContinueORG)
  /\ crawlSeeds 5 Demo.github Demo.acme [Demo.orgsSeed; Demo.usersSeed]
     = Some [ListRequest Demo.orgsSeed;
             Log ErrorLevel "error reading %s repository list: %v; nextURL: %v";
             ListRequest Demo.usersSeed;
             Push (Demo.repo Demo.acme "u1")].
Proof.
  intros W.
  assert (H : crawlPages 5 Demo.github Demo.acme Demo.orgsSeed
    = Some ([ListRequest Demo.orgsSeed;
             Log ErrorLevel "error reading %s repository list: %v; nextURL: %v"],
            ContinueORG)) by (vm_compute; reflexivity).
  split; [exact H|].
  destruct (@crawlSeeds_first_seed W 5 Demo.github Demo.acme Demo.orgsSeed
              [Demo.usersSeed] _ _ H) as [-> _].
  vm_compute. reflexivity.
Defined.

(** C2 as stated fails: the "orgs" listing is read to its end (two pages,
    the second without a next URL), [CrawlOrg] returns, and the "users"
    listing is never requested. *)
Lemma second_seed_skipped :
  let W := Demo.plain "ABC123" in
  generateAPIURLs Demo.github "https://github.com/acme"
    = ([Demo.orgsSeed; Demo.usersSeed], None)
  /\ CrawlOrg 5 "https://github.com/acme" Demo.github Demo.acme
     = Some [ListRequest Demo.orgsSeed;
             Push (Demo.repo Demo.acme "r1"); Push (Demo.repo Demo.acme "r2");
             ListRequest Demo.orgsPage2;
             Push (Demo.repo Demo.acme "r3")]
  /\ (processAndGetNextURL Demo.github Demo.orgsPage2 Demo.acme).1.2 = "".
Proof.
  intros W. split; [reflexivity|]. split; vm_compute; reflexivity.
Qed.

(** C8 fails when the manifest lives in a sub-directory: with the file name
    [docs/publiccode.yml], trimming removes every trailing byte that occurs
    in the file name, the separating [/] included, so the base URL given to
    the parser is not the raw URL without its file-name suffix. *)
Theorem getRemoteFile_base_url_cutset :
  let W := Demo.inDocs in
  RemoteBaseURL (getRemoteFile "ABC123" Demo.docsURL Demo.acme Demo.github).2.1
    = "https://raw.githubusercontent.com/acme/r1/master"
  /\ GoStrings.TrimSuffix Demo.docsURL CRAWLED_FILENAME
     = "https://raw.githubusercontent.com/acme/r1/master/".
Proof.
  intros W. split; vm_compute; reflexivity.
Qed.

(** A candidate with a missing manifest (404). *)
Lemma ProcessRepo_fetch_failed_witness :
  let W := Demo.plain "ABC123" in
  let r2 := Demo.repo Demo.acme "r2" in
  StatusCode (GetURL (FileRawURL r2) (Headers r2)).1 <> StatusOK
  /\ ProcessRepo Demo.crawler r2 =
       [CounterInc "repository_processed" "publiccode";
        HTTPGet (FileRawURL r2) (Headers r2)]
  /\ deadLetters (ProcessRepo Demo.crawler r2) = [].
Proof.
  intros W r2.
  assert (Hcode : StatusCode (GetURL (FileRawURL r2) (Headers r2)).1 <> StatusOK)
    by (vm_compute; discriminate).
  split; [exact Hcode|].
  destruct (@ProcessRepo_fetch_failed W Demo.crawler r2
              (GetURL (FileRawURL r2) (Headers r2)).1
              (GetURL (FileRawURL r2) (Headers r2)).2) as (H1 & _ & H3).
  - reflexivity.
  - left. exact Hcode.
  - split; [exact H1 | exact H3].
Defined.

(** A publisher with the flag set, and a manifest whose administration code
    [XYZ999] is not the whitelist code [ABC123]. *)
Lemma ProcessRepo_unknownIPA_witness :
  let W := Demo.plain "XYZ999" in
  let r1 := Demo.repo Demo.acmeUnknown "r1" in
  UnknownIPA (Pa r1) = true
  /\ validateFile Demo.acmeUnknown
       {| Strict := false; RemoteBaseURL := ""; ParsedCodiceIPA := "XYZ999" |}
       (FileRawURL r1) <> None
  /\ Forall (fun e => isParse e || isDeadLetter e = false) (ProcessRepo Demo.crawler r1)
  /\ exists activityIndex vitality,
       SaveToES r1 activityIndex vitality "XYZ999" ∈ ProcessRepo Demo.crawler r1.
Proof.
  intros W r1. split; [reflexivity|]. split; [vm_compute; discriminate|].
  destruct (@ProcessRepo_unknownIPA W Demo.crawler r1 eq_refl) as (H1 & H2).
  split; [exact H1|].
  destruct (H2 {| StatusCode := 200; Body := "XYZ999" |} eq_refl eq_refl) as (_ & _ & H4).
  exact H4.
Defined.

(** A manifest whose administration code differs from the whitelist code. *)
Lemma ProcessRepo_validation_failed_witness :
  let W := Demo.plain "XYZ999" in
  let r1 := Demo.repo Demo.acme "r1" in
  let r3 := Demo.repo Demo.acme "r3" in
  deadLetters (ProcessRepo Demo.crawler r1) = [FileRawURL r1]
  /\ ProcessRepositories Demo.crawler [r1; r3]
     = ProcessRepo Demo.crawler r1 ++ ProcessRepositories Demo.crawler [r3].
Proof.
  intros W r1 r3.
  destruct (@ProcessRepo_validation_failed W Demo.crawler r1
              {| StatusCode := 200; Body := "XYZ999" |}
              (validateRemoteFile "XYZ999" (FileRawURL r1) Demo.acme Demo.github).1
              "codiceIPA for: https://raw.githubusercontent.com/acme/r1/master/publiccode.yml is XYZ999, which differs from the one assigned to the org in the whitelist: ABC123"
              [r3]) as (_ & H2 & _ & H4).
  - reflexivity.
  - reflexivity.
  - reflexivity.
  - vm_compute. reflexivity.
  - split; [exact H2 | exact H4].
Defined.

(** C7 as stated fails: two manifests with different raw contents, found at
    the same URL and both failing validation, leave exactly the same thing
    in the dead-letter file, namely the URL; the content is not written. *)
Lemma deadLetter_without_content :
  let r1 := Demo.repo Demo.acme "r1" in
  let W1 := Demo.plain "XYZ999" in
  let W2 := Demo.plain "QQQ111" in
  Body (@GetURL W1 (FileRawURL r1) (Headers r1)).1
    <> Body (@GetURL W2 (FileRawURL r1) (Headers r1)).1
  /\ (@validateRemoteFile W1 "XYZ999" (FileRawURL r1) Demo.acme Demo.github).2 <> None
  /\ (@validateRemoteFile W2 "QQQ111" (FileRawURL r1) Demo.acme Demo.github).2 <> None
  /\ deadLetters (@ProcessRepo W1 Demo.crawler r1) = [FileRawURL r1]
  /\ deadLetters (@ProcessRepo W2 Demo.crawler r1) = [FileRawURL r1].
Proof.
  vm_compute. repeat split; discriminate.
Qed.


(** ** Checks on small inputs *)

Example TrimRight_plain :
  let U := Demo.unicode in
  GoStrings.TrimRight "https://raw.githubusercontent.com/acme/r1/master/publiccode.yml"
                      "publiccode.yml"
  = "https://raw.githubusercontent.com/acme/r1/master/".
Proof. reflexivity. Qed.

Example TrimRight_eats_into_name :
  let U := Demo.unicode in
  GoStrings.TrimRight "https://example.com/acme/code/publiccode.yml" "/publiccode.yml"
  = "https://example.com/a".
Proof. reflexivity. Qed.

Example TrimSpace_both_ends :
  let U := Demo.unicode in GoStrings.TrimSpace "  ABC 123 " = "ABC 123".
Proof. reflexivity. Qed.

Example EqualFold_case :
  let U := Demo.unicode in GoStrings.EqualFold "ABC123" "abc123" = true.
Proof. reflexivity. Qed.

Example EqualFold_at_sign :
  let U := Demo.unicode in GoStrings.EqualFold "@" "`" = false.
Proof. reflexivity. Qed.

(** Scenario B: [r1] is blacklisted under ["doc-42"]. *)
Example blacklist_scenario :
  let W := Demo.plain "ABC123" in
  removeBlackListedFromRepositories Demo.crawler GetAllBlackListedRepos
    [Demo.repo Demo.acme "r1"; Demo.repo Demo.acme "r2"]
  = FilterReturns
      {| index := "publiccode"; domains := [Demo.github];
         repositories := {| Chan.cap := 1000;
                            Chan.pending := [Demo.repo Demo.acme "r2"];
                            Chan.closed := true |} |}
      ["doc-42"].
Proof. vm_compute. reflexivity. Qed.

(** Exactly 1000 forwarded candidates still fit. *)
Example blacklist_at_capacity :
  removeBlackListedFromRepositories Demo.crawler ∅ (Demo.repos Demo.acme 1000)
  = FilterReturns
      {| index := "publiccode"; domains := [Demo.github];
         repositories := {| Chan.cap := 1000;
                            Chan.pending := Demo.repos Demo.acme 1000;
                            Chan.closed := true |} |}
      [].
Proof. vm_compute. reflexivity. Qed.

(** Scenario A: two pages of the same listing. *)
Example two_pages :
  let W := Demo.plain "ABC123" in
  crawlPages 2 Demo.github Demo.acme Demo.orgsSeed
  = Some ([ListRequest Demo.orgsSeed;
           Push (Demo.repo Demo.acme "r1"); Push (Demo.repo Demo.acme "r2");
           ListRequest Demo.orgsPage2;
           Push (Demo.repo Demo.acme "r3")],
          ReturnFromCrawlOrg).
Proof. vm_compute. reflexivity. Qed.

(** A published candidate: fetch, parse, clone, activity, publication. *)
Example published_candidate :
  let W := Demo.plain "abc123 " in
  map (fun e => (isParse e, isClone e, isActivity e, isSaveToES e, isDeadLetter e))
      (ProcessRepo Demo.crawler (Demo.repo Demo.acme "r1"))
  = [(false, false, false, false, false);
     (false, false, false, false, false);
     (false, false, false, false, false);
     (true, false, false, false, false);
     (false, true, false, false, false);
     (false, false, true, false, false);
     (false, false, false, false, false);
     (false, false, false, true, false)].
Proof. vm_compute. reflexivity. Qed.

(** * Further properties of the code *)

Section PoolFacts.
Context {A : Type}.

Lemma concat_map_nil {B} (ws : list B) : concat (map (fun _ => @nil A) ws) = [].
Proof. induction ws as [|w ws IH]; [reflexivity | exact IH]. Qed.

(** Adding [x] to the block numbered [k] adds it once to the whole. *)
Lemma concat_map_insert (x : A) (k : nat) (g : nat -> list A) (ws : list nat) :
  NoDup ws -> k ∈ ws ->
  concat (map (fun w => if decide (k = w) then x :: g w else g w) ws)
    ≡ₚ x :: concat (map g ws).
Proof.
  induction ws as [|w ws IH]; intros Hnd Hin; [inversion Hin|].
  apply NoDup_cons in Hnd as [Hw Hnd]. cbn [map concat].
  destruct (decide (k = w)) as [->|Hne].
  - cbn [app]. constructor. apply Permutation_app_head.
    assert (Heq : map (fun w0 => if decide (w = w0) then x :: g w0 else g w0) ws
                  = map g ws).
    { apply map_ext_in. intros w0 Hw0. apply list_elem_of_In in Hw0.
      destruct (decide (w = w0)) as [->|]; [contradiction | reflexivity]. }
    rewrite Heq. reflexivity.
  - apply elem_of_cons in Hin as [->|Hin]; [contradiction|].
    rewrite (IH Hnd Hin). symmetry. apply Permutation_middle.
Qed.

(** Splitting a list into the blocks of a numbering below [n] loses and
    repeats nothing. *)
Lemma concat_blocks (num : A -> nat) (n : nat) (l : list A) :
  (forall x, x ∈ l -> num x < n) ->
  concat (map (fun w => filter (fun x => num x = w) l) (seq 0 n)) ≡ₚ l.
Proof.
  induction l as [|x l IH]; intros Hlt.
  - cbn. rewrite concat_map_nil. reflexivity.
  - assert (Heq : map (fun w => filter (fun y => num y = w) (x :: l)) (seq 0 n)
                  = map (fun w => if decide (num x = w)
                                  then x :: filter (fun y => num y = w) l
                                  else filter (fun y => num y = w) l) (seq 0 n)).
    { apply map_ext. intros w. rewrite filter_cons.
      destruct (decide (num x = w)); reflexivity. }
    rewrite Heq, concat_map_insert.
    + constructor. apply IH. intros y Hy. apply Hlt. now apply list_elem_of_further.
    + apply NoDup_seq.
    + apply elem_of_seq. specialize (Hlt x (list_elem_of_here _ _)). lia.
Qed.

Lemma imap_pair_snd (l : list A) : forall g : nat -> nat,
  (imap (fun i x => (g i, x)) l).*2 = l.
Proof.
  induction l as [|x l IH]; intros g; [reflexivity|].
  cbn. f_equal. apply (IH (g ∘ S)).
Qed.

End PoolFacts.

Section PoolOfWorkers.
Context `{Collab : Collaborators}.

(** Whatever the scheduling, the five shares together hold each candidate
    of the channel once. *)
Lemma shares_cover (assign : nat -> nat) (repos : list Repository) :
  concat (map (fun w => share assign w repos) (seq 0 workerCount)) ≡ₚ repos.
Proof.
  unfold share.
  assert (Hsnd : forall ws : list nat,
    concat (map (fun w => (filter (fun ir : nat * Repository =>
                                     assign ir.1 `mod` workerCount = w)
                                  (imap pair repos)).*2) ws)
    = (concat (map (fun w => filter (fun ir : nat * Repository =>
                                       assign ir.1 `mod` workerCount = w)
                                    (imap pair repos)) ws)).*2).
  { induction ws as [|w ws IH]; [reflexivity|].
    cbn [map concat]. rewrite fmap_app, IH. reflexivity. }
  rewrite Hsnd, concat_blocks.
  - change (imap pair repos) with (imap (fun i x => (id i, x)) repos).
    rewrite (imap_pair_snd repos id). reflexivity.
  - intros x _. apply Nat.mod_upper_bound. discriminate.
Qed.

End PoolOfWorkers.

Section OrchestrationFacts.
Context `{Collab : Collaborators}.

(** A crawler only lends its index name to the processing of a
    candidate. *)
Lemma ProcessRepo_index (c1 c2 : Crawler) (r : Repository) :
  index c1 = index c2 -> ProcessRepo c1 r = ProcessRepo c2 r.
Proof.
  intros Hidx. unfold ProcessRepo, cloneAndSave. rewrite Hidx. reflexivity.
Qed.

Lemma ProcessRepositories_index (c1 c2 : Crawler) (repos : list Repository) :
  index c1 = index c2 -> ProcessRepositories c1 repos = ProcessRepositories c2 repos.
Proof.
  intros Hidx. unfold ProcessRepositories.
  apply flat_map_ext. intros r. apply ProcessRepo_index, Hidx.
Qed.

Lemma finalize_index (c1 c2 : Crawler) :
  index c1 = index c2 -> finalize c1 = finalize c2.
Proof. intros Hidx. unfold finalize. rewrite Hidx. reflexivity. Qed.

Lemma NewCrawler_fresh (c : Crawler) :
  NewCrawler = Some c ->
  c = {| index := ELASTIC_PUBLICCODE_INDEX;
         domains := (ReadAndParseDomains "domains.yml").1;
         repositories := Chan.make chanCapacity |}.
Proof.
  unfold NewCrawler. intros Hnew.
  destruct (negb datadirIsDir); [discriminate|].
  destruct (ReadAndParseDomains "domains.yml") as [ds [e|]]; [discriminate|].
  destruct (failed ClientFactory); [discriminate|].
  destruct (failed (CreateIndexMapping ELASTIC_PUBLICCODE_INDEX)); [discriminate|].
  destruct (failed (CreateIndexMapping ELASTIC_PUBLISHERS_INDEX)); [discriminate|].
  injection Hnew as <-. reflexivity.
Qed.

Lemma partition_lengths (listed : gmap string string) (intake : list Repository) :
  length (removalIds listed intake) + length (forwarded listed intake) = length intake.
Proof.
  induction intake as [|r rest IH]; [reflexivity|].
  destruct (listed !! GitCloneURL r) as [val|] eqn:Hr.
  - destruct (forwarded_listed listed r rest val Hr) as [-> ->]. cbn [length]. lia.
  - destruct (forwarded_unlisted listed r rest Hr) as [-> ->]. cbn [length]. lia.
Qed.

Lemma forwarded_unlisted_all (listed : gmap string string) (intake : list Repository) :
  Forall (fun r => listed !! GitCloneURL r = None) (forwarded listed intake).
Proof.
  apply Forall_forall. intros r Hr. unfold forwarded in Hr.
  apply list_elem_of_filter in Hr as [Hr _]. exact Hr.
Qed.

Lemma removalIds_from_blacklist (listed : gmap string string) (intake : list Repository) :
  Forall (fun id => exists r, r ∈ intake /\ listed !! GitCloneURL r = Some id)
         (removalIds listed intake).
Proof.
  apply Forall_forall. intros id Hid. unfold removalIds in Hid.
  apply list_elem_of_omap in Hid as (r & Hr & Hid). exists r. auto.
Qed.

(** X2: When [removeBlackListedFromRepositories] returns, it has split the
    intake in two: every candidate is either forwarded or answered by one
    removal id, no forwarded candidate has a blacklisted clone URL, every
    removal id is the blacklist entry of a candidate of the intake, and the
    crawler keeps its index and domains with a closed replacement
    channel. *)
Theorem removeBlackListed_partition (c c' : Crawler) (listedRepos : gmap string string)
    (intake : list Repository) (toBeRemoved : list string) :
  removeBlackListedFromRepositories c listedRepos intake = FilterReturns c' toBeRemoved ->
  length toBeRemoved + length (Chan.pending (repositories c')) = length intake
  /\ Forall (fun r => listedRepos !! GitCloneURL r = None /\ r ∈ intake)
            (Chan.pending (repositories c'))
  /\ Forall (fun id => exists r, r ∈ intake /\ listedRepos !! GitCloneURL r = Some id)
            toBeRemoved
  /\ Chan.closed (repositories c') = true
  /\ index c' = index c /\ domains c' = domains c.
Proof.
  unfold removeBlackListedFromRepositories. intros Hrun.
  destruct (decide (length (forwarded listedRepos intake) <= chanCapacity)) as [Hle|Hgt].
  - rewrite filterLoop_room in Hrun
      by (cbn [Chan.make Chan.pending Chan.cap length]; lia).
    injection Hrun as <- <-. cbn.
    split; [apply partition_lengths|]. split; [|split; [|auto]].
    + apply Forall_forall. intros r Hr. unfold forwarded in Hr.
      apply list_elem_of_filter in Hr. exact Hr.
    + apply removalIds_from_blacklist.
  - destruct (filterLoop_stuck listedRepos intake [] (Chan.make chanCapacity))
      as (pre & repo & post & _ & _ & _ & Hstuck).
    { cbn [Chan.make Chan.pending Chan.cap length]. lia. }
    { cbn [Chan.make Chan.pending Chan.cap length]. lia. }
    rewrite Hstuck in Hrun. discriminate Hrun.
Qed.

(** X3: [CrawlPublishers] as a whole: with at most 1000 candidates left by the
    blacklist it returns the removal ids in arrival order, its workers
    process the forwarded candidates and no others, and its error is the
    one of the alias updates; with more than 1000 it never returns. *)
Theorem CrawlPublishers_outcome (c : Crawler) (publishers : list PA)
    (intake : list Repository) (assign : nat -> nat) :
  (length (forwarded GetAllBlackListedRepos intake) <= 1000
   /\ CrawlPublishers c publishers intake assign =
        Returns
          (removalIds GetAllBlackListedRepos intake,
           {| before :=
                [Log InfoLevel
                   "%v organizations belonging to %v publishers are going to be scanned"];
              workers :=
                map (fun w => ProcessRepositories c
                                (share assign w (forwarded GetAllBlackListedRepos intake)))
                    (seq 0 workerCount);
              finalization := (finalize c).1;
              result := aliasResult c |}))
  \/ (1000 < length (forwarded GetAllBlackListedRepos intake)
      /\ CrawlPublishers c publishers intake assign = Blocks).
Proof.
  change 1000 with chanCapacity.
  unfold CrawlPublishers, removeBlackListedFromRepositories.
  destruct (decide (length (forwarded GetAllBlackListedRepos intake) <= chanCapacity))
    as [Hle|Hgt].
  - left. split; [exact Hle|].
    rewrite filterLoop_room by (cbn [Chan.make Chan.pending Chan.cap length]; lia).
    rewrite crawl_closed by reflexivity.
    cbn [withBefore before workers finalization result app repositories Chan.pending
         Chan.close Chan.make].
    reflexivity.
  - right. split; [lia|].
    destruct (filterLoop_stuck GetAllBlackListedRepos intake [] (Chan.make chanCapacity))
      as (pre & repo & post & _ & _ & _ & Hstuck).
    { cbn [Chan.make Chan.pending Chan.cap length]. lia. }
    { cbn [Chan.make Chan.pending Chan.cap length]. lia. }
    rewrite Hstuck. reflexivity.
Qed.

(** X4: [CrawlRepo] on a crawler fresh from [NewCrawler], when the provider
    driver pushes at most 1000 candidates: it returns.  An unknown host or
    a driver error is returned as it is, and then no worker runs and the
    index store is not touched; otherwise the workers process what the
    driver pushed and the error is the one of the alias updates. *)
Theorem CrawlRepo_outcome (c : Crawler) (repoURL : string) (pa : PA)
    (assign : nat -> nat) (domain : Domain) (herr : error)
    (pushed : list Repository) (perr : error) :
  NewCrawler = Some c ->
  KnownHost repoURL = (domain, herr) ->
  processSingleRepo domain repoURL pa = (pushed, perr) ->
  length pushed <= 1000 ->
  exists r,
    CrawlRepo c repoURL pa assign = Returns r
    /\ match herr, perr with
       | Some e, _ =>
           result r = Some e /\ pushes (before r) = []
           /\ workers r = [] /\ finalization r = []
       | None, Some e =>
           result r = Some e /\ pushes (before r) = pushed
           /\ workers r = [] /\ finalization r = []
       | None, None =>
           result r = aliasResult c /\ pushes (before r) = pushed
           /\ workers r = map (fun w => ProcessRepositories c (share assign w pushed))
                              (seq 0 workerCount)
           /\ finalization r = (finalize c).1
       end.
Proof.
  intros Hnew Hhost Hpush Hlen.
  apply NewCrawler_fresh in Hnew.
  assert (Hpushes : forall l : list Repository,
            pushes (F:=float64) (Log InfoLevel "Processing repository: %s" :: map Push l) = l).
  { intros l. unfold pushes. cbn. induction l as [|x l IH]; [reflexivity|].
    cbn. f_equal. exact IH. }
  unfold CrawlRepo. rewrite Hhost.
  destruct herr as [e|].
  - eexists. split; [reflexivity|]. cbn. auto.
  - rewrite Hpush.
    rewrite sendAll_room
      by (rewrite Hnew; cbn [repositories Chan.make Chan.pending Chan.cap length];
          unfold chanCapacity; lia).
    destruct perr as [e|].
    + eexists. split; [reflexivity|]. cbn [stopped before workers finalization result app].
      rewrite Hpushes. auto.
    + rewrite crawl_closed by reflexivity.
      eexists. split; [reflexivity|].
      cbn [withBefore before workers finalization result app repositories].
      rewrite app_nil_r, Hpushes.
      split; [unfold aliasResult; reflexivity|]. split; [reflexivity|]. split.
      * apply map_ext. intros w.
        rewrite Hnew. cbn [repositories Chan.make Chan.pending Chan.close app].
        apply ProcessRepositories_index. reflexivity.
      * reflexivity.
Qed.

(** X5: The finalization of [crawl], in order: the index is flushed once,
    first, whatever happens next; the alias of the publishers index is
    repointed; the alias of the publiccode index is repointed only when
    that succeeded. *)
Theorem crawl_finalization_order (c : Crawler) (assign : nat -> nat) (r : report) :
  crawl c assign = Returns r ->
  head (finalization r) = Some (ESFlush (index c))
  /\ count isESFlush (finalization r) = 1
  /\ aliasUpdates (finalization r) =
       match AliasUpdate ELASTIC_PUBLISHERS_INDEX ELASTIC_ALIAS with
       | Some _ => [(ELASTIC_PUBLISHERS_INDEX, ELASTIC_ALIAS)]
       | None => [(ELASTIC_PUBLISHERS_INDEX, ELASTIC_ALIAS); (index c, ELASTIC_ALIAS)]
       end.
Proof.
  unfold crawl. destruct (Chan.closed (repositories c)); [|discriminate].
  destruct (finalize c) as [evs err] eqn:Hfin. intros [= <-]. cbn [finalization].
  unfold finalize, logIf in Hfin.
  destruct (AliasUpdate ELASTIC_PUBLISHERS_INDEX ELASTIC_ALIAS);
    [|destruct (AliasUpdate (index c) ELASTIC_ALIAS)];
    destruct (failed (Flush (index c)));
    injection Hfin as <- _; repeat split; reflexivity.
Qed.

End OrchestrationFacts.

Section CandidateFacts.
Context `{Collab : Collaborators}.

Local Abbreviation ev := (event float64).

Lemma effects_app (l1 l2 : list ev) : effects (l1 ++ l2) = effects l1 ++ effects l2.
Proof. apply filter_app. Qed.

Lemma effects_logIf (err : error) (fmt : string) : effects (logIf err fmt : list ev) = [].
Proof. unfold logIf. destruct (failed err); reflexivity. Qed.

Lemma count_app (p : ev -> bool) (l1 l2 : list ev) :
  count p (l1 ++ l2) = count p l1 + count p l2.
Proof. unfold count. rewrite filter_app, length_app. reflexivity. Qed.

(** The parser as [getRemoteFile] sets it up for a manifest found at
    [url]. *)
Lemma getRemoteFile_events (data url : string) (pa : PA) (d : Domain) :
  effects (getRemoteFile data url pa d).1 =
    [Parse data {| Strict := false;
                   RemoteBaseURL := GoStrings.TrimRight url CRAWLED_FILENAME;
                   ParsedCodiceIPA := "" |} (Host d)].
Proof.
  unfold getRemoteFile. cbn [ParsedCodiceIPA NewParser].
  destruct (ParseInDomain _ _ _ _ _) as [code [e|]]; reflexivity.
Qed.

Lemma validateRemoteFile_effects (data url : string) (pa : PA) (d : Domain) :
  effects (validateRemoteFile data url pa d).1 =
    [Parse data {| Strict := false;
                   RemoteBaseURL := GoStrings.TrimRight url CRAWLED_FILENAME;
                   ParsedCodiceIPA := "" |} (Host d)].
Proof.
  rewrite <- getRemoteFile_events with (pa := pa). unfold validateRemoteFile.
  destruct (getRemoteFile data url pa d) as [evs [parser [e|]]]; reflexivity.
Qed.

Lemma cloneAndSave_effects (c : Crawler) (r : Repository) (body : string) :
  effects (cloneAndSave c r body) =
    [Clone (RepoDomain r) (Hostname r) (Name r) (GitCloneURL r) (GitBranch r) (index c);
     Activity r activityDays;
     SaveToES r (CalculateRepoActivity r activityDays).1.1
              (map int_of_float64 (CalculateRepoActivity r activityDays).1.2) body].
Proof.
  unfold cloneAndSave.
  destruct (CalculateRepoActivity r activityDays) as [[ai vit] aerr].
  rewrite !effects_app, !effects_logIf. reflexivity.
Qed.

(** X6: A candidate whose manifest is fetched and accepted (or whose publisher
    has the "unknown IPA" flag) is cloned, measured and published, once
    each and in that order, whatever the clone, the activity computation
    and the publication answer: their errors are logged and nothing more.
    The activity is computed over [ACTIVITY_DAYS] days (60 when unset), and
    the document published holds the body fetched, the activity index and
    the vitality converted to integers. *)
Theorem ProcessRepo_publishes (c : Crawler) (repository : Repository)
    (resp : HTTPResponse) :
  GetURL (FileRawURL repository) (Headers repository) = (resp, None) ->
  StatusCode resp = StatusOK ->
  UnknownIPA (Pa repository) = true
  \/ (validateRemoteFile (Body resp) (FileRawURL repository) (Pa repository)
                         (RepoDomain repository)).2 = None ->
  effects (ProcessRepo c repository) =
    [CounterInc "repository_processed" (index c);
     HTTPGet (FileRawURL repository) (Headers repository)]
    ++ (if UnknownIPA (Pa repository) then []
        else [Parse (Body resp)
                    {| Strict := false;
                       RemoteBaseURL :=
                         GoStrings.TrimRight (FileRawURL repository) CRAWLED_FILENAME;
                       ParsedCodiceIPA := "" |}
                    (Host (RepoDomain repository))])
    ++ [Clone (RepoDomain repository) (Hostname repository) (Name repository)
              (GitCloneURL repository) (GitBranch repository) (index c);
        Activity repository (default 60%Z ACTIVITY_DAYS);
        SaveToES repository (CalculateRepoActivity repository activityDays).1.1
                 (map int_of_float64 (CalculateRepoActivity repository activityDays).1.2)
                 (Body resp)].
Proof.
  intros Hget Hok Hpass.
  assert (Hdays : default 60%Z ACTIVITY_DAYS = activityDays).
  { unfold activityDays. destruct ACTIVITY_DAYS; reflexivity. }
  rewrite Hdays. unfold ProcessRepo. rewrite Hget, Hok.
  cbn [negb orb Z.eqb Pos.eqb StatusOK failed].
  destruct (UnknownIPA (Pa repository)) eqn:Hflag.
  - change (effects ([?a; ?b] ++ [?l1] ++ [?l2] ++ ?t))
      with (a :: b :: effects t).
    rewrite cloneAndSave_effects. reflexivity.
  - destruct Hpass as [Hpass|Hpass]; [discriminate|].
    pose proof (validateRemoteFile_effects (Body resp) (FileRawURL repository)
                  (Pa repository) (RepoDomain repository)) as Hevs.
    destruct (validateRemoteFile _ _ _ _) as [evs verr]. cbn [fst snd] in Hpass, Hevs.
    subst verr.
    change (effects ([?a; ?b] ++ [?l1] ++ ?t)) with (a :: b :: effects t).
    rewrite effects_app, Hevs, cloneAndSave_effects. reflexivity.
Qed.

Lemma cloneAndSave_counts (c : Crawler) (r : Repository) (body : string) :
  count isCounterInc (cloneAndSave c r body) = 0
  /\ count isHTTPGet (cloneAndSave c r body) = 0
  /\ count isSaveToES (cloneAndSave c r body) = 1
  /\ count isDeadLetter (cloneAndSave c r body) = 0
  /\ count isClone (cloneAndSave c r body) = 1.
Proof.
  unfold cloneAndSave, logIf.
  destruct (CalculateRepoActivity r activityDays) as [[ai vit] aerr].
  destruct (failed _), (failed aerr), (failed _); repeat split; reflexivity.
Qed.

Lemma validateRemoteFile_counts (data url : string) (pa : PA) (d : Domain) :
  count isCounterInc (validateRemoteFile data url pa d).1 = 0
  /\ count isHTTPGet (validateRemoteFile data url pa d).1 = 0
  /\ count isSaveToES (validateRemoteFile data url pa d).1 = 0
  /\ count isDeadLetter (validateRemoteFile data url pa d).1 = 0
  /\ count isClone (validateRemoteFile data url pa d).1 = 0.
Proof.
  unfold validateRemoteFile, getRemoteFile.
  destruct (ParseInDomain _ _ _ _ _) as [code [e|]]; repeat split; reflexivity.
Qed.

Lemma ProcessRepo_counts (c : Crawler) (repository : Repository) :
  count isCounterInc (ProcessRepo c repository) = 1
  /\ count isHTTPGet (ProcessRepo c repository) = 1
  /\ ((count isSaveToES (ProcessRepo c repository) = 0
       /\ count isDeadLetter (ProcessRepo c repository) = 0
       /\ count isClone (ProcessRepo c repository) = 0)
      \/ (count isSaveToES (ProcessRepo c repository) = 0
          /\ count isDeadLetter (ProcessRepo c repository) = 1
          /\ count isClone (ProcessRepo c repository) = 0)
      \/ (count isSaveToES (ProcessRepo c repository) = 1
          /\ count isDeadLetter (ProcessRepo c repository) = 0
          /\ count isClone (ProcessRepo c repository) = 1)).
Proof.
  unfold ProcessRepo.
  destruct (GetURL (FileRawURL repository) (Headers repository)) as [resp err].
  destruct (negb (StatusCode resp =? StatusOK)%Z || failed err).
  - split; [reflexivity|]. split; [reflexivity|]. left. repeat split; reflexivity.
  - destruct (cloneAndSave_counts c repository (Body resp)) as (S1 & S2 & S3 & S4 & S5).
    destruct (UnknownIPA (Pa repository)).
    + rewrite !count_app, S1, S2, S3, S4, S5.
      split; [reflexivity|]. split; [reflexivity|]. right. right. repeat split; reflexivity.
    + destruct (validateRemoteFile_counts (Body resp) (FileRawURL repository)
                  (Pa repository) (RepoDomain repository)) as (V1 & V2 & V3 & V4 & V5).
      destruct (validateRemoteFile _ _ _ _) as [evs [e|]]; cbn [fst] in *;
        rewrite !count_app, ?S1, ?S2, ?S3, ?S4, ?S5, V1, V2, V3, V4, V5.
      * split; [reflexivity|]. split; [reflexivity|]. right. left.
        repeat split; reflexivity.
      * split; [reflexivity|]. split; [reflexivity|]. right. right.
        repeat split; reflexivity.
Qed.


(** X7: Every candidate is counted once and fetched once, and then ends in
    exactly one of three ways: skipped (nothing cloned, published or
    written to the dead-letter file), rejected (one dead-letter entry, no
    clone, no publication), or published (one clone, one publication, no
    dead-letter entry). *)
Theorem ProcessRepo_one_outcome (c : Crawler) (repository : Repository) :
  count isCounterInc (ProcessRepo c repository) = 1
  /\ count isHTTPGet (ProcessRepo c repository) = 1
  /\ ((count isSaveToES (ProcessRepo c repository) = 0
       /\ count isDeadLetter (ProcessRepo c repository) = 0
       /\ count isClone (ProcessRepo c repository) = 0)
      \/ (count isSaveToES (ProcessRepo c repository) = 0
          /\ count isDeadLetter (ProcessRepo c repository) = 1
          /\ count isClone (ProcessRepo c repository) = 0)
      \/ (count isSaveToES (ProcessRepo c repository) = 1
          /\ count isDeadLetter (ProcessRepo c repository) = 0
          /\ count isClone (ProcessRepo c repository) = 1)).
Proof. apply ProcessRepo_counts. Qed.

(** X8: A worker fetches once per candidate it receives, and publishes or
    rejects at most that many: publications and dead-letter entries
    together never exceed the number of candidates. *)
Theorem ProcessRepositories_counts (c : Crawler) (repos : list Repository) :
  count isCounterInc (ProcessRepositories c repos) = length repos
  /\ count isHTTPGet (ProcessRepositories c repos) = length repos
  /\ count isSaveToES (ProcessRepositories c repos)
     + count isDeadLetter (ProcessRepositories c repos) <= length repos
  /\ count isClone (ProcessRepositories c repos)
     = count isSaveToES (ProcessRepositories c repos).
Proof.
  induction repos as [|r repos (IH1 & IH2 & IH3 & IH4)]; [repeat split; cbn; lia|].
  rewrite ProcessRepositories_cons, !count_app.
  destruct (ProcessRepo_counts c r) as (H1 & H2 & H3).
  cbn [length]. repeat split; lia.
Qed.

End CandidateFacts.

Section ManifestFacts.
Context `{Collab : Collaborators}.

Lemma of_bytes_app (l1 l2 : list ascii) :
  GoStrings.of_bytes (l1 ++ l2) = GoStrings.of_bytes l1 +:+ GoStrings.of_bytes l2.
Proof.
  rewrite <- (of_bytes_bytes (GoStrings.of_bytes l1 +:+ GoStrings.of_bytes l2)).
  rewrite bytes_app, !bytes_of_bytes. reflexivity.
Qed.

Lemma bytes_inj (s t : string) : GoStrings.bytes s = GoStrings.bytes t -> s = t.
Proof.
  intros H. rewrite <- (of_bytes_bytes s), <- (of_bytes_bytes t), H. reflexivity.
Qed.

(** What [strings.TrimRight] leaves for an ASCII cutset: the string is the
    result followed by bytes of the cutset only, and the result does not
    end with a byte of the cutset. *)
Lemma TrimRight_spec (s cutset : string) :
  GoStrings.isASCII cutset = true ->
  exists tail,
    s = GoStrings.TrimRight s cutset +:+ tail
    /\ Forall (fun c => GoStrings.contains cutset c = true) (GoStrings.bytes tail)
    /\ (forall c, last (GoStrings.bytes (GoStrings.TrimRight s cutset)) = Some c ->
                  GoStrings.contains cutset c = false).
Proof.
  intros Hascii. unfold GoStrings.TrimRight. rewrite Hascii.
  destruct (dropWhileEnd_split (GoStrings.contains cutset) (GoStrings.bytes s))
    as (suf & Hs & Hsuf & Hlast).
  exists (GoStrings.of_bytes suf). rewrite !bytes_of_bytes. split; [|split].
  - rewrite <- of_bytes_app, <- Hs, of_bytes_bytes. reflexivity.
  - exact Hsuf.
  - exact Hlast.
Qed.

(** X9: With an ASCII file name configured, the parser that [getRemoteFile]
    returns, whether parsing succeeds or not, is lenient ([Strict] is
    false) and its base URL is a prefix of the raw URL: what is cut off
    consists of bytes of the configured file name only, and the base URL
    does not end with such a byte. *)
Theorem getRemoteFile_base_url (data fileRawURL : string) (pa : PA) (domain : Domain) :
  GoStrings.isASCII CRAWLED_FILENAME = true ->
  let parser := (getRemoteFile data fileRawURL pa domain).2.1 in
  Strict parser = false
  /\ exists tail,
       fileRawURL = RemoteBaseURL parser +:+ tail
       /\ Forall (fun c => GoStrings.contains CRAWLED_FILENAME c = true)
                 (GoStrings.bytes tail)
       /\ (forall c, last (GoStrings.bytes (RemoteBaseURL parser)) = Some c ->
                     GoStrings.contains CRAWLED_FILENAME c = false).
Proof.
  intros Hascii.
  assert (Hbase : RemoteBaseURL (getRemoteFile data fileRawURL pa domain).2.1
                  = GoStrings.TrimRight fileRawURL CRAWLED_FILENAME
                  /\ Strict (getRemoteFile data fileRawURL pa domain).2.1 = false).
  { unfold getRemoteFile.
    destruct (ParseInDomain _ _ _ _ _) as [code [e|]]; split; reflexivity. }
  destruct Hbase as [Hbase Hstrict]. cbn zeta. rewrite Hbase.
  split; [exact Hstrict | apply TrimRight_spec, Hascii].
Qed.

(** X10: When the configured file name is ASCII and the raw URL is a prefix,
    a separator byte that does not occur in the file name (the usual [/]),
    and the file name, the base URL given to the parser is the raw URL
    without the file name: the prefix and its separator. *)
Theorem getRemoteFile_base_url_separator (data prefix : string) (sep : ascii)
    (pa : PA) (domain : Domain) :
  GoStrings.isASCII CRAWLED_FILENAME = true ->
  GoStrings.contains CRAWLED_FILENAME sep = false ->
  let fileRawURL := prefix +:+ String sep CRAWLED_FILENAME in
  RemoteBaseURL (getRemoteFile data fileRawURL pa domain).2.1
    = prefix +:+ String sep ""
  /\ GoStrings.TrimSuffix fileRawURL CRAWLED_FILENAME = prefix +:+ String sep "".
Proof.
  intros Hascii Hsep fileRawURL.
  destruct (TrimRight_after_separator prefix CRAWLED_FILENAME sep Hascii Hsep)
    as [Hright Hsuffix].
  split; [|exact Hsuffix].
  rewrite <- Hright. unfold getRemoteFile.
  destruct (ParseInDomain _ _ _ _ _) as [code [e|]]; reflexivity.
Qed.

(** X11: [validateRemoteFile] accepts a manifest exactly when the parser
    accepts it and [EqualFold] finds the parsed administration code and the
    whitelist code equal after [TrimSpace]: for ASCII codes, when they are
    equal once trimmed, letter case ignored.  An error of the parser is
    returned as it is, without comparing codes; and the manifest is parsed
    exactly once. *)
Theorem validateRemoteFile_accepts (data fileRawURL : string) (pa : PA) (domain : Domain) :
  let parse :=
    ParseInDomain {| Strict := false;
                     RemoteBaseURL := GoStrings.TrimRight fileRawURL CRAWLED_FILENAME;
                     ParsedCodiceIPA := "" |}
                  data (Host domain) (UseTokenFor domain) (BasicAuth domain) in
  ((validateRemoteFile data fileRawURL pa domain).2 = None
   <-> parse.2 = None
       /\ GoStrings.EqualFold (GoStrings.TrimSpace (CodiceIPA pa))
                              (GoStrings.TrimSpace parse.1) = true)
  /\ (GoStrings.isASCII (CodiceIPA pa) = true -> GoStrings.isASCII parse.1 = true ->
      ((validateRemoteFile data fileRawURL pa domain).2 = None
       <-> parse.2 = None /\ codesMatch (CodiceIPA pa) parse.1))
  /\ (forall e, parse.2 = Some e ->
        (validateRemoteFile data fileRawURL pa domain).2 = Some e)
  /\ count isParse (validateRemoteFile data fileRawURL pa domain).1 = 1.
Proof.
  cbn zeta. unfold validateRemoteFile, getRemoteFile. cbn [ParsedCodiceIPA NewParser].
  destruct (ParseInDomain _ _ _ _ _) as [code [e|]]; cbn [fst snd].
  - split; [|split; [|split; [|reflexivity]]].
    + split; [discriminate | intros [H _]; discriminate H].
    + intros _ _. split; [discriminate | intros [H _]; discriminate H].
    + intros e' [= <-]. reflexivity.
  - assert (Hiff : validateFile pa {| Strict := false;
                                      RemoteBaseURL :=
                                        GoStrings.TrimRight fileRawURL CRAWLED_FILENAME;
                                      ParsedCodiceIPA := code |} fileRawURL = None
                   <-> None = (None : error)
                       /\ GoStrings.EqualFold (GoStrings.TrimSpace (CodiceIPA pa))
                                              (GoStrings.TrimSpace code) = true).
    { unfold validateFile. cbn [CodiceIPA ParsedCodiceIPA].
      destruct (GoStrings.EqualFold _ _); cbn; split;
        first [ discriminate | intros [_ H]; discriminate H | auto ]. }
    split; [exact Hiff|]. split; [|split; [discriminate | reflexivity]].
    intros Ha Hb. rewrite Hiff.
    rewrite (EqualFold_TrimSpace_codesMatch (CodiceIPA pa) code Ha Hb). reflexivity.
Qed.

Lemma dropWhile_nil_iff {A} (f : A -> bool) (l : list A) :
  GoStrings.dropWhile f l = [] <-> Forall (fun c => f c = true) l.
Proof.
  split.
  - intros H. destruct (dropWhile_split f l) as (pre & Hl & Hpre & _).
    rewrite H, app_nil_r in Hl. subst l. exact Hpre.
  - intros H. rewrite <- (app_nil_r l), dropWhile_all by exact H. reflexivity.
Qed.

(** White-space bytes are ASCII. *)
Lemma blank_isASCII (s : string) :
  Forall (fun c => GoStrings.isSpace c = true) (GoStrings.bytes s) ->
  GoStrings.isASCII s = true.
Proof.
  intros H. apply isASCII_Forall. eapply Forall_impl; [exact H|].
  intros c Hc. unfold GoStrings.isSpace, GoStrings.isASCIIByte in *.
  apply Nat.ltb_lt. apply orb_true_iff in Hc as [Hc|Hc].
  - apply andb_true_iff in Hc as [_ Hc]. apply Nat.leb_le in Hc. lia.
  - apply Nat.eqb_eq in Hc. lia.
Qed.

(** [TrimSpace] returns the empty string exactly on blank ASCII strings. *)
Lemma TrimSpace_empty_iff (s : string) :
  GoStrings.isASCII s = true ->
  (GoStrings.TrimSpace s = ""
   <-> Forall (fun c => GoStrings.isSpace c = true) (GoStrings.bytes s)).
Proof.
  intros Hascii. split.
  - intros H.
    pose proof (TrimSpace_trimmedOf s Hascii) as (l & r & Hs & Hl & Hr & _).
    rewrite H in Hs. cbn in Hs. rewrite Hs. apply Forall_app. auto.
  - intros H. destruct (TrimSpace_ascii s Hascii) as [-> _].
    apply dropWhile_nil_iff in H. rewrite H. reflexivity.
Qed.

Lemma equalFoldASCII_empty (t : string) :
  GoStrings.equalFoldASCII "" t = true <-> t = "".
Proof. destruct t; cbn; split; first [reflexivity | discriminate]. Qed.

(** X12: A publisher whose whitelist code is empty or blank is not exempted
    from the comparison: [validateFile] then accepts, among the manifests
    with an ASCII administration code, exactly those whose code is empty or
    blank too. *)
Theorem validateFile_blank_whitelist_code (pa : PA) (parser : Parser)
    (fileRawURL : string) :
  Forall (fun c => GoStrings.isSpace c = true) (GoStrings.bytes (CodiceIPA pa)) ->
  GoStrings.isASCII (ParsedCodiceIPA parser) = true ->
  (validateFile pa parser fileRawURL = None
   <-> Forall (fun c => GoStrings.isSpace c = true)
              (GoStrings.bytes (ParsedCodiceIPA parser))).
Proof.
  intros Hblank Hascii.
  pose proof (blank_isASCII _ Hblank) as Hpa.
  apply (TrimSpace_empty_iff _ Hpa) in Hblank.
  destruct (TrimSpace_ascii _ Hascii) as [_ Htrim].
  rewrite <- (TrimSpace_empty_iff _ Hascii), <- equalFoldASCII_empty.
  unfold validateFile, GoStrings.EqualFold. rewrite Hblank, Htrim.
  cbn [GoStrings.isASCII GoStrings.bytes list_ascii_of_string forallb andb].
  destruct (GoStrings.equalFoldASCII _ _); cbn; split; congruence.
Qed.

End ManifestFacts.

Section PaginationFacts.
Context `{Collab : Collaborators}.

Local Abbreviation ev := (event float64).

Lemma requests_app (l1 l2 : list ev) : requests (l1 ++ l2) = requests l1 ++ requests l2.
Proof. apply omap_app. Qed.

Lemma pushes_app (l1 l2 : list ev) : pushes (l1 ++ l2) = pushes l1 ++ pushes l2.
Proof. apply omap_app. Qed.

Lemma requests_cons (u : string) (l : list ev) :
  requests (ListRequest u :: l) = u :: requests l.
Proof. reflexivity. Qed.

Lemma pushes_cons_request (u : string) (l : list ev) :
  pushes (ListRequest u :: l) = pushes l.
Proof. reflexivity. Qed.

Lemma requests_Push (l : list Repository) : requests (map Push l : list ev) = [].
Proof. induction l as [|r l IH]; [reflexivity | exact IH]. Qed.

Lemma pushes_Push (l : list Repository) : pushes (map Push l : list ev) = l.
Proof. induction l as [|r l IH]; [reflexivity|]. cbn. f_equal. exact IH. Qed.

(** X13: The pagination of one seed follows the next links: the listing URLs
    requested start with the seed, each further one is the next URL
    answered by the page before it, none is requested after an error or
    after a page without next URL, and the candidates pushed are those of
    the pages requested, in order. *)
Theorem crawlPages_follows_next (domain : Domain) (pa : PA) (fuel : nat) :
  forall url evs e,
  crawlPages fuel domain pa url = Some (evs, e) ->
  head (requests evs) = Some url
  /\ followsNext domain pa (requests evs) e
  /\ pushes evs
     = concat (map (fun u => (processAndGetNextURL domain u pa).1.1) (requests evs))
  /\ length (requests evs) <= fuel.
Proof.
  induction fuel as [|fuel IH]; intros url evs e Hrun; [discriminate|].
  cbn [crawlPages] in Hrun.
  destruct (processAndGetNextURL domain url pa) as [[pushed next] err] eqn:Hpage.
  destruct err as [msg|].
  - injection Hrun as <- <-. cbn [app].
    rewrite requests_cons, pushes_cons_request, requests_app, pushes_app,
      requests_Push, pushes_Push.
    cbn. rewrite Hpage. cbn. rewrite !app_nil_r.
    repeat split; [discriminate | lia].
  - destruct (decide (next = "")) as [->|Hmore].
    + injection Hrun as <- <-.
      rewrite requests_cons, pushes_cons_request, requests_Push, pushes_Push.
      cbn. rewrite Hpage. cbn. rewrite !app_nil_r.
      repeat split; lia.
    + destruct (crawlPages fuel domain pa next) as [[evs' e']|] eqn:Hrest; [|discriminate].
      injection Hrun as <- <-.
      destruct (IH next evs' e' Hrest) as (Hhead & Hchain & Hpush & Hlen).
      cbn [app].
      rewrite requests_cons, pushes_cons_request, requests_app, pushes_app,
        requests_Push, pushes_Push.
      cbn [app head map concat length].
      destruct (requests evs') as [|v us] eqn:Hreq; [discriminate Hhead|].
      injection Hhead as ->.
      cbn [followsNext]. rewrite Hpage. cbn [fst snd].
      rewrite Hpush. cbn [length] in *.
      repeat split; first [assumption | reflexivity | lia].
Qed.

(** Seeds whose pagination stops on an error are all read, in order. *)
Lemma crawlSeeds_failing_prefix (fuel : nat) (domain : Domain) (pa : PA)
    (pre : list string) :
  Forall (fun s => exists evs, crawlPages fuel domain pa s = Some (evs, ContinueORG)) pre ->
  exists evsPre,
    crawlSeeds fuel domain pa pre = Some evsPre
    /\ forall rest,
         crawlSeeds fuel domain pa (pre ++ rest)
         = (fun evs => evsPre ++ evs) <$> crawlSeeds fuel domain pa rest.
Proof.
  induction 1 as [|s pre [evs Hs] _ (evsPre & Hpre & Hrest)].
  - exists []. split; [reflexivity|]. intros rest. cbn.
    destruct (crawlSeeds fuel domain pa rest); reflexivity.
  - exists (evs ++ evsPre). split.
    + cbn [crawlSeeds]. rewrite Hs, Hpre. reflexivity.
    + intros rest. cbn [app crawlSeeds]. rewrite Hs, Hrest.
      destruct (crawlSeeds fuel domain pa rest); cbn; [|reflexivity].
      rewrite app_assoc. reflexivity.
Qed.

(** X14: [CrawlOrg] reads the seeds that [generateAPIURLs] returns in order, up
    to and including the first one whose listing is read to its end: the
    seeds before it, which stopped on an error, are all read, and the seeds
    after it are not.  An error of [generateAPIURLs] is logged and the URLs
    it returned are crawled all the same. *)
Theorem CrawlOrg_stops_at_first_complete_seed (fuel : nat) (orgURL : string)
    (domain : Domain) (pa : PA) (pre : list string) (seed : string)
    (post : list string) (gerr : error) (evs : list ev) :
  generateAPIURLs domain orgURL = (pre ++ seed :: post, gerr) ->
  Forall (fun s => exists evs, crawlPages fuel domain pa s = Some (evs, ContinueORG)) pre ->
  crawlPages fuel domain pa seed = Some (evs, ReturnFromCrawlOrg) ->
  exists evsPre,
    crawlSeeds fuel domain pa pre = Some evsPre
    /\ CrawlOrg fuel orgURL domain pa
       = Some (logIf gerr "generateAPIURLs error: %v" ++ evsPre ++ evs).
Proof.
  intros Hgen Hpre Hseed.
  destruct (crawlSeeds_failing_prefix fuel domain pa pre Hpre) as (evsPre & Hrun & Hrest).
  exists evsPre. split; [exact Hrun|].
  unfold CrawlOrg. rewrite Hgen, Hrest. cbn [crawlSeeds]. rewrite Hseed. reflexivity.
Qed.

End PaginationFacts.

Section FirstVersionFacts.
Context `{Collab : Collaborators} `{Ext : !V1.Extras}.

Local Abbreviation ev := (V1.event float64).

Lemma V1_count_app (p : ev -> bool) (l1 l2 : list ev) :
  V1.count p (l1 ++ l2) = V1.count p l1 + V1.count p l2.
Proof. unfold V1.count. rewrite filter_app, length_app. reflexivity. Qed.

Lemma V1_effects_app (l1 l2 : list ev) :
  V1.effects (l1 ++ l2) = V1.effects l1 ++ V1.effects l2.
Proof. apply filter_app. Qed.

Lemma V1_effects_logIf (err : error) (fmt : string) : V1.effects (V1.logIf err fmt) = [].
Proof. unfold V1.logIf. destruct (failed err); reflexivity. Qed.

(** The first version's validation parses once and logs. *)
Lemma V1_validateRemoteFile_effects (data url : string) (pa : PA) :
  V1.effects (V1.validateRemoteFile data url pa).1 =
    [V1.Parse data {| Strict := Strict NewParser;
                      RemoteBaseURL := GoStrings.TrimRight url CRAWLED_FILENAME;
                      ParsedCodiceIPA := "" |}].
Proof.
  unfold V1.validateRemoteFile. cbn [ParsedCodiceIPA NewParser Strict].
  destruct (V1.ParseManifest _ _) as [code [e|]]; [reflexivity|].
  destruct (negb _ && negb _ && negb _); reflexivity.
Qed.

Lemma V1_saveAll_effects (c : Crawler) (r : Repository) (hash body : string) :
  V1.effects (V1.saveAll c r hash body) =
    [V1.SaveToFile (RepoDomain r) (Hostname r) (Name r) (Metadata r)
                   (index c +:+ "_metadata");
     V1.SaveToFile (RepoDomain r) (Hostname r) (Name r) body (index c);
     V1.Clone (RepoDomain r) (Hostname r) (Name r) (GitCloneURL r) (GitBranch r) (index c);
     V1.Activity (RepoDomain r) (Hostname r) (Name r) 60;
     V1.SaveToES (FileRawURL r) hash
       (V1.CalculateRepoActivity_ (RepoDomain r) (Hostname r) (Name r) 60).1.1
       (map int_of_float64
            (V1.CalculateRepoActivity_ (RepoDomain r) (Hostname r) (Name r) 60).1.2)
       body].
Proof.
  unfold V1.saveAll.
  destruct (V1.CalculateRepoActivity_ _ _ _ _) as [[ai vit] aerr].
  rewrite !V1_effects_app, !V1_effects_logIf. reflexivity.
Qed.

(** Without its log lines, a run of [CheckAvailability] is one of four
    sequences. *)
Lemma V1_CheckAvailability_effects (c : Crawler) (r : Repository) :
  let resp := (GetURL (FileRawURL r) (Headers r)).1 in
  let err := (GetURL (FileRawURL r) (Headers r)).2 in
  let verr := (V1.validateRemoteFile (Body resp) (FileRawURL r) (Pa r)).2 in
  let parsed :=
    V1.Parse (Body resp)
      {| Strict := Strict NewParser;
         RemoteBaseURL := GoStrings.TrimRight (FileRawURL r) CRAWLED_FILENAME;
         ParsedCodiceIPA := "" |} in
  let fetched :=
    [V1.CounterInc "repository_processed" (index c);
     V1.HTTPGet (FileRawURL r) (Headers r)] in
  V1.effects (V1.CheckAvailability c r) =
    if failed (V1.sha1Write (GitCloneURL r)) then [V1.WgDone]
    else if negb ((StatusCode resp =? StatusOK)%Z && negb (failed err))
    then fetched ++ [V1.WgDone]
    else if failed verr
    then fetched ++ [V1.MuLock; parsed; V1.MuUnlock;
                     V1.LogBadYamlToFile (FileRawURL r); V1.WgDone]
    else fetched ++ [V1.MuLock; parsed; V1.MuUnlock]
         ++ V1.effects (V1.saveAll c r (V1.sha1Hex (GitCloneURL r)) (Body resp))
         ++ [V1.WgDone].
Proof.
  cbn zeta. unfold V1.CheckAvailability.
  destruct (V1.sha1Write (GitCloneURL r)) as [e|]; [reflexivity|]. cbn [failed].
  destruct (GetURL (FileRawURL r) (Headers r)) as [resp err]. cbn [fst snd].
  destruct ((StatusCode resp =? StatusOK)%Z && negb (failed err)); [|reflexivity].
  cbn [negb].
  pose proof (V1_validateRemoteFile_effects (Body resp) (FileRawURL r) (Pa r)) as Hevs.
  destruct (V1.validateRemoteFile (Body resp) (FileRawURL r) (Pa r)) as [evs verr].
  cbn [fst snd] in *.
  destruct verr as [e|]; cbn [failed];
    rewrite !V1_effects_app, Hevs; reflexivity.
Qed.

(** Log lines do not count for a test that rejects them. *)
Lemma V1_count_effects (p : ev -> bool) (l : list ev) :
  (forall e, V1.isLog e = true -> p e = false) ->
  V1.count p l = V1.count p (V1.effects l).
Proof.
  intros Hp. unfold V1.count, V1.effects.
  induction l as [|e l IH]; [reflexivity|].
  rewrite !filter_cons.
  destruct (V1.isLog e) eqn:Hlog.
  - rewrite (Hp e Hlog).
    destruct (decide (false = true)) as [Hf|_]; [discriminate Hf|].
    destruct (decide (true = false)) as [Hf|_]; [discriminate Hf|]. exact IH.
  - destruct (decide (false = false)) as [_|Hf]; [|contradiction].
    rewrite filter_cons. destruct (decide (p e = true)); cbn [length]; rewrite IH;
      reflexivity.
Qed.

(** The mutex of [CheckAvailability] is held around the parsing and its
    log line, and around nothing else. *)
Lemma V1_CheckAvailability_lock_scope (c : Crawler) (repository : Repository) :
  V1.heldOnly (fun e => V1.isParse e || V1.isLog e) false
              (V1.CheckAvailability c repository) = true
  /\ V1.onlyHeld V1.isParse false (V1.CheckAvailability c repository) = true.
Proof.
  unfold V1.CheckAvailability.
  destruct (V1.sha1Write _); [split; reflexivity|].
  destruct (GetURL _ _) as [resp err].
  destruct ((StatusCode resp =? StatusOK)%Z && negb (failed err)); [|split; reflexivity].
  unfold V1.validateRemoteFile. cbn [ParsedCodiceIPA NewParser Strict].
  destruct (V1.ParseManifest _ _) as [code [e|]]; [split; reflexivity|].
  destruct (negb _ && negb _ && negb _); [split; reflexivity|].
  unfold V1.saveAll, V1.logIf.
  destruct (V1.CalculateRepoActivity_ _ _ _ _) as [[ai vit] aerr].
  destruct (failed (V1.SaveToFile_ _ _ _ _ _)), (failed (V1.SaveToFile_ _ _ _ _ _)),
           (failed (CloneRepository _ _ _ _ _ _)), (failed aerr),
           (failed (V1.SaveToES_ _ _ _ _ _)); split; reflexivity.
Qed.

(** X15: [CheckAvailability] releases the wait group exactly once on every
    path, as its last action, and never adds to it; it takes the mutex at
    most once and has released it when it returns, also when validation
    fails; and the mutex is held exactly around the validation: while it
    is held nothing happens but the parsing of the manifest and its log
    line (no fetch, no file, no clone, no publication, no wait-group
    call), the manifest is never parsed without it, and it is taken as
    many times as the manifest is parsed. *)
Theorem V1_CheckAvailability_releases (c : Crawler) (repository : Repository) :
  V1.count V1.isWgDone (V1.CheckAvailability c repository) = 1
  /\ last (V1.CheckAvailability c repository) = Some V1.WgDone
  /\ V1.count V1.isWgAdd (V1.CheckAvailability c repository) = 0
  /\ V1.mutexOK false (V1.effects (V1.CheckAvailability c repository)) = true
  /\ V1.count V1.isMuLock (V1.CheckAvailability c repository) <= 1
  /\ V1.heldOnly (fun e => V1.isParse e || V1.isLog e) false
                 (V1.CheckAvailability c repository) = true
  /\ V1.onlyHeld V1.isParse false (V1.CheckAvailability c repository) = true
  /\ V1.count V1.isMuLock (V1.CheckAvailability c repository)
     = V1.count V1.isParse (V1.CheckAvailability c repository).
Proof.
  assert (Hlast : last (V1.CheckAvailability c repository) = Some V1.WgDone).
  { unfold V1.CheckAvailability.
    destruct (V1.sha1Write _); [reflexivity|].
    destruct (GetURL _ _) as [resp err].
    destruct ((StatusCode resp =? StatusOK)%Z && negb (failed err)); [|reflexivity].
    destruct (V1.validateRemoteFile _ _ _) as [evs [e|]].
    - rewrite !app_assoc.
      change [V1.Log ErrorLevel "%s is an invalid publiccode."; V1.Log ErrorLevel "Errors: %+v";
              V1.LogBadYamlToFile (FileRawURL repository); V1.WgDone]
        with ([V1.Log ErrorLevel "%s is an invalid publiccode.";
               V1.Log ErrorLevel "Errors: %+v";
               V1.LogBadYamlToFile (FileRawURL repository)] ++ [@V1.WgDone float64]).
      rewrite app_assoc. apply last_snoc.
    - rewrite !app_assoc. apply last_snoc. }
  destruct (V1_CheckAvailability_lock_scope c repository) as [Hheld Honly].
  rewrite (V1_count_effects V1.isParse (V1.CheckAvailability c repository))
    by (intros [] H; first [reflexivity | discriminate H]).
  rewrite (V1_count_effects V1.isWgDone (V1.CheckAvailability c repository)),
          (V1_count_effects V1.isWgAdd (V1.CheckAvailability c repository)),
          (V1_count_effects V1.isMuLock (V1.CheckAvailability c repository))
    by (intros [] H; first [reflexivity | discriminate H]).
  split; [|split; [exact Hlast|]].
  - rewrite V1_CheckAvailability_effects. cbn zeta.
    destruct (failed (V1.sha1Write _)); [reflexivity|].
    destruct (negb _); [reflexivity|].
    destruct (failed _); [reflexivity|].
    rewrite V1_saveAll_effects. reflexivity.
  - rewrite V1_CheckAvailability_effects. cbn zeta.
    destruct (failed (V1.sha1Write _)); [repeat split; first [assumption | vm_compute; lia]|].
    destruct (negb _); [repeat split; first [assumption | vm_compute; lia]|].
    destruct (failed _); [repeat split; first [assumption | vm_compute; lia]|].
    rewrite V1_saveAll_effects. repeat split; first [assumption | vm_compute; lia].
Qed.

Lemma V1_CheckAvailability_done_once (c : Crawler) (r : Repository) :
  V1.count V1.isWgDone (V1.CheckAvailability c r) = 1.
Proof.
  rewrite (V1_count_effects V1.isWgDone (V1.CheckAvailability c r))
    by (intros [] H; first [reflexivity | discriminate H]).
  rewrite V1_CheckAvailability_effects. cbn zeta.
  destruct (failed (V1.sha1Write _)); [reflexivity|].
  destruct (negb _); [reflexivity|].
  destruct (failed _); [reflexivity|].
  rewrite V1_saveAll_effects. reflexivity.
Qed.

(** X16: The wait group of the first version balances: [ProcessRepositories]
    adds one for every candidate before starting its goroutine, the
    goroutines together release exactly as many, one each, and only then
    does the caller wait. *)
Theorem V1_ProcessRepositories_balance (c : Crawler) (repos : list Repository) :
  let '(caller, goroutines) := V1.ProcessRepositories c repos in
  V1.count V1.isWgAdd caller = length repos
  /\ length goroutines = length repos
  /\ sum_list (map (V1.count V1.isWgDone) goroutines) = V1.count V1.isWgAdd caller
  /\ last caller = Some V1.WgWait.
Proof.
  unfold V1.ProcessRepositories.
  assert (Hadd : V1.count V1.isWgAdd
                   (map (fun _ => V1.WgAdd) repos ++ [@V1.WgWait float64])
                 = length repos).
  { rewrite V1_count_app. change (V1.count V1.isWgAdd [V1.WgWait]) with 0.
    rewrite Nat.add_0_r. induction repos as [|r l IH]; [reflexivity|].
    change (V1.count V1.isWgAdd (map (fun _ => V1.WgAdd) (r :: l)))
      with (S (V1.count V1.isWgAdd (map (fun _ : Repository => @V1.WgAdd float64) l))).
    rewrite IH. reflexivity. }
  rewrite Hadd. split; [reflexivity|]. split; [apply length_map|]. split.
  - induction repos as [|r l IH]; [reflexivity|].
    cbn [map sum_list sum_list_with length].
    rewrite V1_CheckAvailability_done_once.
    change (sum_list_with id ?l) with (sum_list l). rewrite IH; [reflexivity|].
    clear. rewrite V1_count_app. change (V1.count V1.isWgAdd [V1.WgWait]) with 0.
    rewrite Nat.add_0_r. induction l as [|r l IH]; [reflexivity|].
    change (V1.count V1.isWgAdd (map (fun _ => V1.WgAdd) (r :: l)))
      with (S (V1.count V1.isWgAdd (map (fun _ : Repository => @V1.WgAdd float64) l))).
    rewrite IH. reflexivity.
  - apply last_snoc.
Qed.

(** X17: The first version's [validateRemoteFile] accepts a manifest exactly
    when the parser accepts it and the comparison is skipped (the whitelist
    code or the parsed code is empty) or the two codes are the same string,
    byte for byte; an error of the parser is returned as it is. *)
Theorem V1_validateRemoteFile_accepts (data fileRawURL : string) (pa : PA) :
  let parse :=
    V1.ParseManifest {| Strict := Strict NewParser;
                        RemoteBaseURL := GoStrings.TrimRight fileRawURL CRAWLED_FILENAME;
                        ParsedCodiceIPA := "" |} data in
  ((V1.validateRemoteFile data fileRawURL pa).2 = None
   <-> parse.2 = None
       /\ (CodiceIPA pa = "" \/ parse.1 = "" \/ CodiceIPA pa = parse.1))
  /\ (forall e, parse.2 = Some e -> (V1.validateRemoteFile data fileRawURL pa).2 = Some e).
Proof.
  cbn zeta. unfold V1.validateRemoteFile. cbn [ParsedCodiceIPA NewParser Strict].
  destruct (V1.ParseManifest _ _) as [code [e|]]; cbn [fst snd].
  - split; [|intros e' [= <-]; reflexivity].
    split; [discriminate | intros [H _]; discriminate H].
  - split; [|discriminate].
    destruct (String.eqb_spec (CodiceIPA pa) ""), (String.eqb_spec code ""),
             (String.eqb_spec (CodiceIPA pa) code);
      cbn [negb andb snd]; split;
      first [ discriminate
            | intros _; split; [reflexivity | tauto]
            | intros [_ [H|[H|H]]]; contradiction
            | reflexivity ].
Qed.

(** X18: A candidate accepted by the first version: its metadata and its
    manifest are saved to file (the metadata under the index name with
    [_metadata] appended), then the repository is cloned, its activity
    computed over 60 days, and the document published under the hash of
    the clone URL, in that order and whatever errors these steps answer;
    the mutex is held around the parsing only. *)
Theorem V1_CheckAvailability_accepted (c : Crawler) (repository : Repository)
    (resp : HTTPResponse) :
  V1.sha1Write (GitCloneURL repository) = None ->
  GetURL (FileRawURL repository) (Headers repository) = (resp, None) ->
  StatusCode resp = StatusOK ->
  (V1.validateRemoteFile (Body resp) (FileRawURL repository) (Pa repository)).2 = None ->
  V1.effects (V1.CheckAvailability c repository) =
    [V1.CounterInc "repository_processed" (index c);
     V1.HTTPGet (FileRawURL repository) (Headers repository);
     V1.MuLock;
     V1.Parse (Body resp)
       {| Strict := Strict NewParser;
          RemoteBaseURL := GoStrings.TrimRight (FileRawURL repository) CRAWLED_FILENAME;
          ParsedCodiceIPA := "" |};
     V1.MuUnlock;
     V1.SaveToFile (RepoDomain repository) (Hostname repository) (Name repository)
                   (Metadata repository) (index c +:+ "_metadata");
     V1.SaveToFile (RepoDomain repository) (Hostname repository) (Name repository)
                   (Body resp) (index c);
     V1.Clone (RepoDomain repository) (Hostname repository) (Name repository)
              (GitCloneURL repository) (GitBranch repository) (index c);
     V1.Activity (RepoDomain repository) (Hostname repository) (Name repository) 60;
     V1.SaveToES (FileRawURL repository) (V1.sha1Hex (GitCloneURL repository))
       (V1.CalculateRepoActivity_ (RepoDomain repository) (Hostname repository)
                                  (Name repository) 60).1.1
       (map int_of_float64
            (V1.CalculateRepoActivity_ (RepoDomain repository) (Hostname repository)
                                       (Name repository) 60).1.2)
       (Body resp);
     V1.WgDone].
Proof.
  intros Hhash Hget Hok Hval.
  rewrite V1_CheckAvailability_effects. cbn zeta.
  rewrite Hhash, Hget. cbn [fst snd failed]. rewrite Hok, Hval.
  cbn [Z.eqb Pos.eqb StatusOK negb andb failed].
  rewrite V1_saveAll_effects. reflexivity.
Qed.

(** X19: The first version stores something (a file, a clone, a document) only
    for a candidate whose hash, fetch and validation all succeeded, and
    then exactly two files, one clone and one document; it writes to the
    dead-letter file exactly when the manifest was fetched and failed
    validation. *)
Theorem V1_CheckAvailability_stores_iff_accepted (c : Crawler) (repository : Repository) :
  let resp := (GetURL (FileRawURL repository) (Headers repository)).1 in
  let err := (GetURL (FileRawURL repository) (Headers repository)).2 in
  let fetched :=
    negb (failed (V1.sha1Write (GitCloneURL repository)))
    && (StatusCode resp =? StatusOK)%Z && negb (failed err) in
  let verr := (V1.validateRemoteFile (Body resp) (FileRawURL repository)
                                     (Pa repository)).2 in
  V1.count V1.isSaveToFile (V1.CheckAvailability c repository)
    = (if fetched && negb (failed verr) then 2 else 0)
  /\ V1.count V1.isClone (V1.CheckAvailability c repository)
     = (if fetched && negb (failed verr) then 1 else 0)
  /\ V1.count V1.isSaveToES (V1.CheckAvailability c repository)
     = (if fetched && negb (failed verr) then 1 else 0)
  /\ V1.count V1.isSaving (V1.CheckAvailability c repository)
     = (if fetched && negb (failed verr) then 4 else 0)
  /\ V1.count V1.isDeadLetter (V1.CheckAvailability c repository)
     = (if fetched && failed verr then 1 else 0).
Proof.
  cbn zeta.
  rewrite (V1_count_effects V1.isSaveToFile (V1.CheckAvailability c repository)),
          (V1_count_effects V1.isClone (V1.CheckAvailability c repository)),
          (V1_count_effects V1.isSaveToES (V1.CheckAvailability c repository)),
          (V1_count_effects V1.isSaving (V1.CheckAvailability c repository)),
          (V1_count_effects V1.isDeadLetter (V1.CheckAvailability c repository))
    by (intros [] H; first [reflexivity | discriminate H]).
  rewrite V1_CheckAvailability_effects. cbn zeta.
  destruct (failed (V1.sha1Write _)); [repeat split; reflexivity|]. cbn [negb andb].
  destruct ((StatusCode _ =? StatusOK)%Z && negb (failed _)); [|repeat split; reflexivity].
  cbn [negb andb].
  destruct (failed _); [repeat split; reflexivity|].
  rewrite V1_saveAll_effects. repeat split; reflexivity.
Qed.

Lemma V1_requests_app (l1 l2 : list ev) :
  V1.requests (l1 ++ l2) = V1.requests l1 ++ V1.requests l2.
Proof. apply omap_app. Qed.

Lemma V1_requests_Push (l : list Repository) : V1.requests (map V1.Push l : list ev) = [].
Proof. induction l as [|r l IH]; [reflexivity | exact IH]. Qed.

Lemma V1_requests_logIf (err : error) (fmt : string) :
  V1.requests (V1.logIf err fmt) = [].
Proof. unfold V1.logIf. destruct (failed err); reflexivity. Qed.

Lemma V1_pages_follow_next (domain : Domain) (pa : PA) (fuel : nat) :
  forall url evs,
  V1.pages fuel domain pa url = Some evs ->
  head (V1.requests evs) = Some url
  /\ (followsNext domain pa (V1.requests evs) ContinueORG
      \/ followsNext domain pa (V1.requests evs) ReturnFromCrawlOrg)
  /\ length (V1.requests evs) <= fuel.
Proof.
  induction fuel as [|fuel IH]; intros url evs Hrun; [discriminate|].
  cbn [V1.pages] in Hrun.
  destruct (processAndGetNextURL domain url pa) as [[pushed next] err] eqn:Hpage.
  assert (Hhere : forall t : list ev,
            V1.requests (V1.Log DebugLevel "processAndGetNextURL handler: %s"
                         :: V1.ListRequest url :: (map V1.Push pushed ++ t))
            = url :: V1.requests t).
  { intros t.
    change (V1.requests (V1.Log ?a ?b :: V1.ListRequest ?u :: ?l))
      with (u :: V1.requests l).
    rewrite V1_requests_app, V1_requests_Push. reflexivity. }
  destruct err as [msg|].
  - injection Hrun as <-. cbn [app]. rewrite Hhere. cbn. rewrite Hpage. cbn.
    split; [reflexivity|]. split; [left; discriminate | lia].
  - destruct (decide (next = "")) as [->|Hmore].
    + injection Hrun as <-. cbn [app]. rewrite Hhere. cbn. rewrite Hpage. cbn.
      split; [reflexivity|]. split; [right; auto | lia].
    + destruct (V1.pages fuel domain pa next) as [evs'|] eqn:Hrest; [|discriminate].
      injection Hrun as <-. cbn [app]. rewrite Hhere.
      destruct (IH next evs' Hrest) as (Hhead & Hchain & Hlen).
      destruct (V1.requests evs') as [|v us] eqn:Hreq; [discriminate Hhead|].
      injection Hhead as ->. cbn [head length followsNext]. rewrite Hpage. cbn [fst snd].
      cbn [length] in Hlen.
      split; [reflexivity|]. split; [|lia].
      destruct Hchain as [Hchain|Hchain]; [left | right]; auto.
Qed.

(** X20: [ProcessPADomain] requests the URL that [generateAPIURL] returned, also
    when that call failed (the failure is only logged), and then follows
    the next links: it stops at the first page that answers with an error
    or without next URL, and requests nothing after it. *)
Theorem V1_ProcessPADomain_follows_next (fuel : nat) (orgURL : string)
    (domain : Domain) (pa : PA) (evs : list ev) :
  V1.ProcessPADomain fuel orgURL domain pa = Some evs ->
  head (V1.requests evs) = Some (V1.generateAPIURL domain orgURL).1
  /\ (followsNext domain pa (V1.requests evs) ContinueORG
      \/ followsNext domain pa (V1.requests evs) ReturnFromCrawlOrg)
  /\ length (V1.requests evs) <= fuel.
Proof.
  unfold V1.ProcessPADomain.
  destruct (V1.generateAPIURL domain orgURL) as [apiURL gerr]. cbn [fst].
  destruct (V1.pages fuel domain pa apiURL) as [evs'|] eqn:Hrun; [|discriminate].
  intros [= <-]. rewrite V1_requests_app, V1_requests_logIf. cbn [app].
  apply V1_pages_follow_next. exact Hrun.
Qed.

End FirstVersionFacts.

Section PoolRun.
Context `{Collab : Collaborators}.

Lemma ProcessRepositories_tally (c : Crawler) (repos : list Repository) :
  count isCounterInc (ProcessRepositories c repos) = length repos
  /\ count isHTTPGet (ProcessRepositories c repos) = length repos
  /\ count isSaveToES (ProcessRepositories c repos)
     + count isDeadLetter (ProcessRepositories c repos) <= length repos.
Proof.
  induction repos as [|r repos (IH1 & IH2 & IH3)]; [repeat split; cbn; lia|].
  rewrite ProcessRepositories_cons, !count_app.
  destruct (ProcessRepo_counts c r) as (H1 & H2 & H3).
  cbn [length]. repeat split; lia.
Qed.

Lemma workers_tally (c : Crawler) (shares : list (list Repository)) :
  sum_list (map (count isCounterInc) (map (ProcessRepositories c) shares))
    = length (concat shares)
  /\ sum_list (map (count isHTTPGet) (map (ProcessRepositories c) shares))
     = length (concat shares)
  /\ sum_list (map (count isSaveToES) (map (ProcessRepositories c) shares))
     + sum_list (map (count isDeadLetter) (map (ProcessRepositories c) shares))
     <= length (concat shares).
Proof.
  induction shares as [|l shares (IH1 & IH2 & IH3)]; [repeat split; cbn; lia|].
  destruct (ProcessRepositories_tally c l) as (H1 & H2 & H3).
  assert (Hcons : forall (x : nat) (xs : list nat), sum_list (x :: xs) = x + sum_list xs)
    by reflexivity.
  cbn [map concat]. rewrite !Hcons, length_app.
  repeat split; lia.
Qed.

(** X1: [crawl], on a closed channel, runs five workers that together
    process a rearrangement of the pending candidates, whatever the
    scheduling; so over the whole pool the counter is incremented and the
    manifest fetched exactly once per pending candidate, and publications
    and dead-letter entries together never exceed the number of pending
    candidates. *)
Theorem crawl_each_candidate_once (c : Crawler) (assign : nat -> nat) :
  Chan.closed (repositories c) = true ->
  exists r shares,
    crawl c assign = Returns r
    /\ workers r = map (ProcessRepositories c) shares
    /\ length shares = 5
    /\ concat shares ≡ₚ Chan.pending (repositories c)
    /\ sum_list (map (count isCounterInc) (workers r))
       = length (Chan.pending (repositories c))
    /\ sum_list (map (count isHTTPGet) (workers r))
       = length (Chan.pending (repositories c))
    /\ sum_list (map (count isSaveToES) (workers r))
       + sum_list (map (count isDeadLetter) (workers r))
       <= length (Chan.pending (repositories c)).
Proof.
  intros Hclosed.
  pose (shares := map (fun w => share assign w (Chan.pending (repositories c)))
                      (seq 0 workerCount)).
  assert (Hcover : concat shares ≡ₚ Chan.pending (repositories c))
    by apply shares_cover.
  exists {| before := [];
            workers := map (ProcessRepositories c) shares;
            finalization := (finalize c).1;
            result := aliasResult c |}, shares.
  split.
  { rewrite crawl_closed by exact Hclosed. unfold shares. rewrite map_map. reflexivity. }
  split; [reflexivity|]. split; [reflexivity|]. split; [exact Hcover|].
  cbn [workers].
  destruct (workers_tally c shares) as (H1 & H2 & H3).
  rewrite <- (Permutation_length Hcover). auto.
Qed.

End PoolRun.

(** ** The further properties on the concrete world *)

Lemma crawl_each_candidate_once_witness :
  let W := Demo.plain "ABC123" in
  let c := {| index := "publiccode"; domains := [Demo.github];
              repositories := {| Chan.cap := 1000;
                                 Chan.pending := Demo.repos Demo.acme 7;
                                 Chan.closed := true |} |} in
  Chan.closed (repositories c) = true
  /\ exists r,
       crawl c id = Returns r
       /\ sum_list (map (count isHTTPGet) (workers r)) = 7.
Proof.
  intros W c. split; [reflexivity|].
  destruct (@crawl_each_candidate_once W c id eq_refl)
    as (r & shares & H1 & _ & _ & _ & _ & H6 & _).
  exists r. split; [exact H1 | exact H6].
Defined.

Lemma removeBlackListed_partition_witness :
  let W := Demo.plain "ABC123" in
  let intake := [Demo.repo Demo.acme "r1"; Demo.repo Demo.acme "r2"] in
  let c' := {| index := "publiccode"; domains := [Demo.github];
               repositories := {| Chan.cap := 1000;
                                  Chan.pending := [Demo.repo Demo.acme "r2"];
                                  Chan.closed := true |} |} in
  removeBlackListedFromRepositories Demo.crawler GetAllBlackListedRepos intake
    = FilterReturns c' ["doc-42"]
  /\ length ["doc-42"] + length (Chan.pending (repositories c')) = length intake.
Proof.
  intros W intake c'.
  assert (Hrun : removeBlackListedFromRepositories Demo.crawler GetAllBlackListedRepos intake
                 = FilterReturns c' ["doc-42"]) by (vm_compute; reflexivity).
  split; [exact Hrun|].
  destruct (removeBlackListed_partition Demo.crawler c' GetAllBlackListedRepos intake
              ["doc-42"] Hrun) as (Hlen & _).
  exact Hlen.
Defined.

Lemma CrawlRepo_outcome_witness :
  let W := Demo.plain "ABC123" in
  let url := "https://github.com/acme/r1" in
  NewCrawler = Some Demo.crawler
  /\ KnownHost url = (Demo.github, None)
  /\ processSingleRepo Demo.github url Demo.acme = ([Demo.repo Demo.acme "r1"], None)
  /\ exists r,
       CrawlRepo Demo.crawler url Demo.acme id = Returns r
       /\ result r = aliasResult Demo.crawler
       /\ pushes (before r) = [Demo.repo Demo.acme "r1"].
Proof.
  intros W url. split; [reflexivity|]. split; [reflexivity|]. split; [reflexivity|].
  destruct (@CrawlRepo_outcome W Demo.crawler url Demo.acme id Demo.github None
              [Demo.repo Demo.acme "r1"] None eq_refl eq_refl eq_refl)
    as (r & Hrun & Hres & Hpush & _).
  - cbn [length]. lia.
  - exists r. split; [exact Hrun|]. split; [exact Hres | exact Hpush].
Defined.

Lemma crawl_finalization_order_witness :
  let W := Demo.flushFails in
  let c := {| index := "publiccode"; domains := [Demo.github];
              repositories := Chan.close (Chan.make chanCapacity) |} in
  exists r,
    crawl c id = Returns r
    /\ head (finalization r) = Some (ESFlush "publiccode")
    /\ aliasUpdates (finalization r) = [("publishers", "current"); ("publiccode", "current")].
Proof.
  intros W c.
  pose proof (@crawl_closed W c id eq_refl) as Hrun.
  eexists. split; [exact Hrun|].
  destruct (@crawl_finalization_order W c id _ Hrun) as (Hhead & _ & Halias).
  split; [exact Hhead | exact Halias].
Defined.

Lemma ProcessRepo_publishes_witness :
  let W := Demo.plain "abc123 " in
  let r1 := Demo.repo Demo.acme "r1" in
  GetURL (FileRawURL r1) (Headers r1) = ({| StatusCode := 200; Body := "abc123 " |}, None)
  /\ (validateRemoteFile "abc123 " (FileRawURL r1) (Pa r1) (RepoDomain r1)).2 = None
  /\ map (fun e => (isParse e, isClone e, isActivity e, isSaveToES e))
         (effects (ProcessRepo Demo.crawler r1))
     = [(false, false, false, false); (false, false, false, false);
        (true, false, false, false); (false, true, false, false);
        (false, false, true, false); (false, false, false, true)].
Proof.
  intros W r1. split; [reflexivity|].
  assert (Hval : (validateRemoteFile "abc123 " (FileRawURL r1) (Pa r1) (RepoDomain r1)).2
                 = None) by (vm_compute; reflexivity).
  split; [exact Hval|].
  rewrite (@ProcessRepo_publishes W Demo.crawler r1
             {| StatusCode := 200; Body := "abc123 " |} eq_refl eq_refl (or_intror Hval)).
  reflexivity.
Defined.

Lemma getRemoteFile_base_url_witness :
  let W := Demo.inDocs in
  GoStrings.isASCII CRAWLED_FILENAME = true
  /\ exists tail,
       Demo.docsURL
       = RemoteBaseURL (getRemoteFile "ABC123" Demo.docsURL Demo.acme Demo.github).2.1
         +:+ tail
       /\ Forall (fun c => GoStrings.contains "docs/publiccode.yml" c = true)
                 (GoStrings.bytes tail).
Proof.
  intros W. split; [reflexivity|].
  destruct (@getRemoteFile_base_url W "ABC123" Demo.docsURL Demo.acme Demo.github eq_refl)
    as (_ & tail & Hurl & Htail & _).
  exists tail. split; [exact Hurl | exact Htail].
Defined.

Lemma getRemoteFile_base_url_separator_witness :
  let W := Demo.plain "ABC123" in
  GoStrings.isASCII CRAWLED_FILENAME = true
  /\ GoStrings.contains CRAWLED_FILENAME "/" = false
  /\ RemoteBaseURL
       (getRemoteFile "ABC123"
          "https://raw.githubusercontent.com/acme/r1/master/publiccode.yml"
          Demo.acme Demo.github).2.1
     = "https://raw.githubusercontent.com/acme/r1/master/".
Proof.
  intros W. split; [reflexivity|]. split; [reflexivity|].
  destruct (@getRemoteFile_base_url_separator W "ABC123"
              "https://raw.githubusercontent.com/acme/r1/master" "/"%char
              Demo.acme Demo.github eq_refl eq_refl) as [Hbase _].
  exact Hbase.
Defined.

Lemma validateFile_blank_whitelist_code_witness :
  let W := Demo.plain "XYZ999" in
  let pa := {| PAName := "Acme"; CodiceIPA := " "; Organizations := [];
               Repositories := []; UnknownIPA := false |} in
  let parser := {| Strict := false; RemoteBaseURL := ""; ParsedCodiceIPA := "XYZ999" |} in
  Forall (fun c => GoStrings.isSpace c = true) (GoStrings.bytes (CodiceIPA pa))
  /\ GoStrings.isASCII (ParsedCodiceIPA parser) = true
  /\ validateFile pa parser "https://example.com/publiccode.yml" <> None
  /\ ~ Forall (fun c => GoStrings.isSpace c = true) (GoStrings.bytes "XYZ999").
Proof.
  intros W pa parser.
  assert (Hblank : Forall (fun c => GoStrings.isSpace c = true)
                          (GoStrings.bytes (CodiceIPA pa)))
    by (repeat constructor).
  split; [exact Hblank|]. split; [reflexivity|].
  assert (Hno : validateFile pa parser "https://example.com/publiccode.yml" <> None)
    by (vm_compute; discriminate).
  split; [exact Hno|].
  intros Hall. apply Hno.
  apply (@validateFile_blank_whitelist_code W pa parser _ Hblank eq_refl). exact Hall.
Defined.

Lemma crawlPages_follows_next_witness :
  let W := Demo.plain "ABC123" in
  let evs := [ListRequest Demo.orgsSeed;
              Push (Demo.repo Demo.acme "r1"); Push (Demo.repo Demo.acme "r2");
              ListRequest Demo.orgsPage2;
              Push (Demo.repo Demo.acme "r3")] in
  crawlPages 2 Demo.github Demo.acme Demo.orgsSeed = Some (evs, ReturnFromCrawlOrg)
  /\ followsNext Demo.github Demo.acme [Demo.orgsSeed; Demo.orgsPage2] ReturnFromCrawlOrg.
Proof.
  intros W evs.
  assert (Hrun : crawlPages 2 Demo.github Demo.acme Demo.orgsSeed
                 = Some (evs, ReturnFromCrawlOrg)) by (vm_compute; reflexivity).
  split; [exact Hrun|].
  destruct (@crawlPages_follows_next W Demo.github Demo.acme 2 Demo.orgsSeed evs
              ReturnFromCrawlOrg Hrun) as (_ & Hchain & _).
  exact Hchain.
Defined.

Lemma CrawlOrg_stops_at_first_complete_seed_witness :
  let W := Demo.orgsFails in
  generateAPIURLs Demo.github "https://github.com/acme"
    = ([Demo.orgsSeed] ++ Demo.usersSeed :: [], None)
  /\ CrawlOrg 5 "https://github.com/acme" Demo.github Demo.acme
     = Some [ListRequest Demo.orgsSeed;
             Log ErrorLevel "error reading %s repository list: %v; nextURL: %v";
             ListRequest Demo.usersSeed;
             Push (Demo.repo Demo.acme "u1")].
Proof.
  intros W. split; [reflexivity|].
  destruct (@CrawlOrg_stops_at_first_complete_seed W 5 "https://github.com/acme"
              Demo.github Demo.acme [Demo.orgsSeed] Demo.usersSeed [] None
              [ListRequest Demo.usersSeed; Push (Demo.repo Demo.acme "u1")])
    as (evsPre & Hpre & Hrun).
  - reflexivity.
  - constructor; [|constructor]. eexists. vm_compute. reflexivity.
  - vm_compute. reflexivity.
  - rewrite Hrun. f_equal.
    assert (HevsPre : crawlSeeds 5 Demo.github Demo.acme [Demo.orgsSeed]
                      = Some [ListRequest Demo.orgsSeed;
                              Log ErrorLevel
                                "error reading %s repository list: %v; nextURL: %v"])
      by (vm_compute; reflexivity).
    rewrite HevsPre in Hpre. injection Hpre as <-. reflexivity.
Defined.

Lemma V1_CheckAvailability_accepted_witness :
  let W := Demo.plain "ABC123" in
  let X := demoExtras "ABC123" in
  let r1 := Demo.repo Demo.acme "r1" in
  V1.sha1Write (GitCloneURL r1) = None
  /\ (V1.validateRemoteFile "ABC123" (FileRawURL r1) (Pa r1)).2 = None
  /\ length (V1.effects (V1.CheckAvailability Demo.crawler r1)) = 11
  /\ last (V1.effects (V1.CheckAvailability Demo.crawler r1)) = Some V1.WgDone.
Proof.
  intros W X r1. split; [reflexivity|].
  assert (Hval : (V1.validateRemoteFile "ABC123" (FileRawURL r1) (Pa r1)).2 = None)
    by (vm_compute; reflexivity).
  split; [exact Hval|].
  rewrite (@V1_CheckAvailability_accepted W X Demo.crawler r1
             {| StatusCode := 200; Body := "ABC123" |} eq_refl eq_refl eq_refl Hval).
  split; reflexivity.
Defined.

Lemma V1_ProcessPADomain_follows_next_witness :
  let W := Demo.plain "ABC123" in
  let X := demoExtras "ABC123" in
  (V1.generateAPIURL Demo.github "https://github.com/acme").2 = Some "unknown API"
  /\ match V1.ProcessPADomain 3 "https://github.com/acme" Demo.github Demo.acme with
     | Some evs =>
         head (V1.requests evs) = Some Demo.orgsSeed /\ length (V1.requests evs) <= 3
     | None => False
     end.
Proof.
  intros W X. split; [reflexivity|].
  destruct (V1.ProcessPADomain 3 "https://github.com/acme" Demo.github Demo.acme)
    as [evs|] eqn:Hrun.
  - destruct (@V1_ProcessPADomain_follows_next W X 3 "https://github.com/acme"
                Demo.github Demo.acme evs Hrun) as (Hhead & _ & Hlen).
    split; [exact Hhead | exact Hlen].
  - vm_compute in Hrun. discriminate Hrun.
Defined.
